(** * Dependable Painting: chat session orchestrator and notification pipeline

    A shallow embedding of the TypeScript worker code:
    - [ChatSession.fetch] and [ChatSession.detectHighValueLead] (chatsession.ts),
    - [NotificationService] (lib/notifications.ts),
    - [AnalyticsService] (lib/analytics.ts),
    - the queue consumer [queue] (queue.ts).

    JavaScript values that the code reads without validating (the completion
    response, the queue message body) are modelled by an untyped value type
    [JsValue]; property reads on [undefined]/[null] and method calls on values
    that lack the method raise [TypeError], as they do in JavaScript.
    Side effects (outgoing HTTP requests, queue sends, ack/retry calls and the
    durable-object storage) are threaded through a state-and-exception monad.

    Strings are Rocq strings, read as UTF-8 byte sequences.  [toLowerCase]
    maps the letters A-Z to a-z and leaves every other byte unchanged.  All
    keywords searched for by the code are lower-case ASCII without the letter
    k and none ends in i, so the two non-ASCII characters whose JavaScript
    lower-casing produces ASCII (U+0130, U+212A) cannot create or destroy a
    keyword match; on keyword membership the model agrees with JavaScript. *)

From Stdlib Require Import String Ascii List ZArith Bool Lia.
Import ListNotations.

Set Warnings "-register-all".

Local Open Scope list_scope.
Local Open Scope string_scope.

(** ** Strings *)

Module JsString.

Definition is_upper (c : ascii) : bool :=
  let n := nat_of_ascii c in (65 <=? n)%nat && (n <=? 90)%nat.

Definition is_lower (c : ascii) : bool :=
  let n := nat_of_ascii c in (97 <=? n)%nat && (n <=? 122)%nat.

Definition lower_ascii (c : ascii) : ascii :=
  if is_upper c then ascii_of_nat (nat_of_ascii c + 32) else c.

Definition upper_ascii (c : ascii) : ascii :=
  if is_lower c then ascii_of_nat (nat_of_ascii c - 32) else c.

(** [String.prototype.toLowerCase] *)
Fixpoint toLowerCase (s : string) : string :=
  match s with
  | EmptyString => EmptyString
  | String c s' => String (lower_ascii c) (toLowerCase s')
  end.

(** [String.prototype.toUpperCase] *)
Fixpoint toUpperCase (s : string) : string :=
  match s with
  | EmptyString => EmptyString
  | String c s' => String (upper_ascii c) (toUpperCase s')
  end.

(** [s.startsWith(k)] *)
Fixpoint startsWith (s k : string) : bool :=
  match k, s with
  | EmptyString, _ => true
  | String _ _, EmptyString => false
  | String a k', String b s' => Ascii.eqb a b && startsWith s' k'
  end.

(** [s.includes(k)]: [k] occurs in [s] at some offset. *)
Fixpoint includes (s k : string) : bool :=
  startsWith s k ||
  match s with
  | EmptyString => false
  | String _ s' => includes s' k
  end.

(** [s.substring(0, n)] *)
Fixpoint take (n : nat) (s : string) : string :=
  match n, s with
  | O, _ => EmptyString
  | S _, EmptyString => EmptyString
  | S n', String c s' => String c (take n' s')
  end.

(** [keywords.some(k => s.includes(k))] *)
Definition some_included (keywords : list string) (s : string) : bool :=
  existsb (fun keyword => includes s keyword) keywords.

(** Relational reading of substring containment, independent of [includes]. *)
Definition Substring (k s : string) : Prop :=
  exists pre post, s = pre ++ k ++ post.

(** Two strings that differ at most in the case of their ASCII letters. *)
Inductive SameUpToCase : string -> string -> Prop :=
| suc_nil : SameUpToCase EmptyString EmptyString
| suc_same c s t : SameUpToCase s t -> SameUpToCase (String c s) (String c t)
| suc_down c s t :
    is_upper c = true -> SameUpToCase s t ->
    SameUpToCase (String c s) (String (lower_ascii c) t)
| suc_up c s t :
    is_upper c = true -> SameUpToCase s t ->
    SameUpToCase (String (lower_ascii c) s) (String c t).

End JsString.

Import JsString.

(** ** Untyped JavaScript values *)

Inductive JsValue : Type :=
| JUndefined
| JNull
| JBool (b : bool)
| JNum (z : Z)
| JStr (s : string)
| JArr (items : list JsValue)
| JObj (fields : list (string * JsValue)).

Inductive JsError : Type :=
| TypeError       (* property read on undefined/null, call of a non-function *)
| SyntaxError     (* response body is not JSON *)
| NetworkError    (* fetch rejected *)
| QueueError      (* NOTIFY_QUEUE.send rejected *)
| InvalidCharacterError. (* btoa of a string with a code point above U+00FF *)

Inductive Completion (A : Type) : Type :=
| Normal (a : A)
| Throw (e : JsError).
Arguments Normal {A} a.
Arguments Throw {A} e.

Module Js.

(** ToBoolean *)
Definition truthy (v : JsValue) : bool :=
  match v with
  | JUndefined | JNull => false
  | JBool b => b
  | JNum z => negb (z =? 0)%Z
  | JStr s => negb (s =? "")
  | JArr _ | JObj _ => true
  end.

(** [a || b] *)
Definition or_else (a b : JsValue) : JsValue := if truthy a then a else b.

(** [v === 'lit'] for a string literal *)
Definition is_str (v : JsValue) (lit : string) : bool :=
  match v with
  | JStr s => s =? lit
  | _ => false
  end.

Fixpoint lookup (k : string) (fields : list (string * JsValue)) : JsValue :=
  match fields with
  | [] => JUndefined
  | (k', v) :: rest => if k =? k' then v else lookup k rest
  end.

(** [v.name] for a property name that is not a built-in of strings, numbers,
    booleans or arrays (every name the modelled code reads is of that kind). *)
Definition get (v : JsValue) (name : string) : Completion JsValue :=
  match v with
  | JUndefined | JNull => Throw TypeError
  | JObj fields => Normal (lookup name fields)
  | _ => Normal JUndefined
  end.

(** [v[0]] *)
Definition get0 (v : JsValue) : Completion JsValue :=
  match v with
  | JUndefined | JNull => Throw TypeError
  | JArr items => Normal (nth 0 items JUndefined)
  | JStr (String c _) => Normal (JStr (String c EmptyString))
  | JObj fields => Normal (lookup "0" fields)
  | _ => Normal JUndefined
  end.

(** [v.toLowerCase()] *)
Definition call_toLowerCase (v : JsValue) : Completion string :=
  match v with
  | JStr s => Normal (toLowerCase s)
  | _ => Throw TypeError
  end.

(** [v?.substring(0, n)] *)
Definition opt_substring (v : JsValue) (n : nat) : Completion JsValue :=
  match v with
  | JUndefined | JNull => Normal JUndefined
  | JStr s => Normal (JStr (take n s))
  | _ => Throw TypeError
  end.

(** [v.length] *)
Definition length_of (v : JsValue) : Completion JsValue :=
  match v with
  | JUndefined | JNull => Throw TypeError
  | JStr s => Normal (JNum (Z.of_nat (String.length s)))
  | JArr items => Normal (JNum (Z.of_nat (List.length items)))
  | JObj fields => Normal (lookup "length" fields)
  | _ => Normal JUndefined
  end.

End Js.

(** ** Environment bindings (types.ts) *)

Record Env : Type := {
  OPENAI_API_KEY : string;
  AI_GATEWAY_URL : string;
  EMAIL_FROM : string;
  EMAIL_TO : string;
  SENDGRID_API_KEY : option string;
  TWILIO_ACCOUNT_SID : option string;
  TWILIO_AUTH_TOKEN : option string;
  TWILIO_PHONE_NUMBER : option string;
  GA_MEASUREMENT_ID : option string;
  GA_API_SECRET : option string;
  GOOGLE_ADS_CONVERSION_ID : option string
}.

(** Truthiness of an optional string binding: set and not empty. *)
Definition present (o : option string) : bool :=
  match o with
  | Some s => negb (s =? "")
  | None => false
  end.

(** [o || d] on an optional string. *)
Definition str_or (o : option string) (d : string) : string :=
  match o with
  | Some s => if s =? "" then d else s
  | None => d
  end.

(** ** Data model *)

Inductive Role : Type := system | user | assistant.

(** One history entry [{ role, content }]; the content is whatever value the
    code stored (history is [any[]] in the source). *)
Record Turn : Type := { role : Role; content : JsValue }.

(** Request body of [/api/chat] ([ChatMessage] in types.ts). *)
Record ChatMessage : Type := {
  message : string;
  page : option string;
  imageUrl : option string
}.

(** Body of the JSON answer of [ChatSession.fetch]. *)
Record ChatReply : Type := {
  reply : JsValue;
  sessionId : string;
  isHighValue : bool
}.

(** [AnalyticsEvent] (lib/analytics.ts), the fields the modelled callers set. *)
Record AnalyticsEvent : Type := {
  event_name : string;
  event_category : string;
  event_label : string;
  value : option Z;
  page_location : JsValue;
  session_id : JsValue;
  custom_parameters : list (string * JsValue)
}.

(** The text of an SMS, by template and interpolated values. *)
Inductive SmsBody : Type :=
| SmsEstimate (urgencyText : string) (name phone service : JsValue)
| SmsChatLead (preview : JsValue).

(** The HTML of an email, by template and interpolated values. *)
Inductive EmailBody : Type :=
| EmailEstimate (urgencyText : string)
    (name email phone service message timestamp : JsValue)
| EmailChatLead (page message reply timestamp : JsValue)
| EmailCallConversion (page timestamp : JsValue).

(** Outgoing HTTP requests, one constructor per endpoint the code calls. *)
Inductive Request : Type :=
| CompletionRequest (url apiKey model : string) (messages : list Turn)
| TwilioRequest (sid token from to : string) (body : SmsBody)
| SendGridRequest (apiKey to from subject : string) (body : EmailBody)
| GA4Request (measurementId apiSecret : string) (event : AnalyticsEvent).

(** What [fetch] does: it rejects, or resolves to a response with a status
    and a body that parses as JSON ([Some]) or does not ([None]). *)
Inductive FetchResult : Type :=
| Rejected
| Responded (status : Z) (json : option JsValue).

(** [response.ok] *)
Definition status_ok (status : Z) : bool :=
  ((200 <=? status) && (status <=? 299))%Z.

(** A message of a queue batch; [ack] and [retry] are methods of it. *)
Record Message : Type := {
  id : string;
  timestamp : Z;
  body : JsValue
}.

(** Everything outside the worker: the network, the queue producer side and
    the clock. *)
Record World : Type := {
  net : Request -> FetchResult;
  queue_accepts : JsValue -> bool;
  now : Z
}.

(** Observable side effects, in the order the code performs them. *)
Inductive Effect : Type :=
| Fetched (r : Request)
| QueueSendJson (payload : JsValue)   (* NOTIFY_QUEUE.send(JSON.stringify(payload)) *)
| Acked (messageId : string)
| Retried (messageId : string).

(** ** State-and-exception monad *)

Record State : Type := {
  storage_history : option (list Turn);   (* state.storage, key 'history' *)
  effects : list Effect
}.

Definition M (A : Type) : Type := State -> Completion A * State.

Definition ret {A} (a : A) : M A := fun st => (Normal a, st).

Definition throw {A} (e : JsError) : M A := fun st => (Throw e, st).

Definition bind {A B} (m : M A) (k : A -> M B) : M B :=
  fun st =>
    match m st with
    | (Normal a, st') => k a st'
    | (Throw e, st') => (Throw e, st')
    end.

(** [try { m } catch (error) { h error }]; effects performed before the
    exception stay performed. *)
Definition try_catch {A} (m : M A) (h : JsError -> M A) : M A :=
  fun st =>
    match m st with
    | (Normal a, st') => (Normal a, st')
    | (Throw e, st') => h e st'
    end.

Definition lift {A} (c : Completion A) : M A :=
  fun st => (c, st).

Definition emit (e : Effect) : M unit :=
  fun st => (Normal tt,
             {| storage_history := storage_history st;
                effects := (effects st ++ [e])%list |}).

Declare Scope js_scope.
Delimit Scope js_scope with js.
Notation "x <- m ;; k" := (bind m (fun x => k))
  (at level 100, m at next level, right associativity) : js_scope.
Notation "m ;;; k" := (bind m (fun _ => k))
  (at level 100, right associativity) : js_scope.
Local Open Scope js_scope.

(** [await fetch(request)] *)
Definition do_fetch (w : World) (r : Request) : M (Z * option JsValue) :=
  emit (Fetched r) ;;;
  match net w r with
  | Rejected => throw NetworkError
  | Responded status json => ret (status, json)
  end.

(** [await response.json()] *)
Definition response_json (resp : Z * option JsValue) : M JsValue :=
  match snd resp with
  | Some v => ret v
  | None => throw SyntaxError
  end.

(** [await env.NOTIFY_QUEUE.send(JSON.stringify(payload))] *)
Definition queue_send (w : World) (payload : JsValue) : M unit :=
  emit (QueueSendJson payload) ;;;
  if queue_accepts w payload then ret tt else throw QueueError.

(** [await state.storage.get('history')] *)
Definition storage_get : M (option (list Turn)) :=
  fun st => (Normal (storage_history st), st).

(** [await state.storage.put('history', h)] *)
Definition storage_put (h : list Turn) : M unit :=
  fun st => (Normal tt, {| storage_history := Some h; effects := effects st |}).

(** [state.waitUntil(promise)]: the async call has started; its rejection is
    not observed by the caller. *)
Definition waitUntil (m : M unit) : M unit :=
  try_catch m (fun _ => ret tt).

(** [for (const x of xs) { body x }] *)
Fixpoint for_of {A} (xs : list A) (body : A -> M unit) : M unit :=
  match xs with
  | [] => ret tt
  | x :: rest => body x ;;; for_of rest body
  end.

Definition initial (h : option (list Turn)) : State :=
  {| storage_history := h; effects := [] |}.

(** ** AnalyticsService (lib/analytics.ts)

    The version of the class that has [trackChatInteraction] and the
    three-argument [trackFormSubmission], which are the ones the chat session
    and the queue consumer call. *)

Module AnalyticsService.

Definition commercialKeywords : list string :=
  [ "commercial"; "business"; "office"; "restaurant"; "store";
    "warehouse"; "retail" ].

(** [trackGA4Event(event)] *)
Definition trackGA4Event (w : World) (env : Env) (event : AnalyticsEvent)
  : M bool :=
  if negb (present (GA_MEASUREMENT_ID env)) then ret false
  else
    let request :=
      GA4Request (str_or (GA_MEASUREMENT_ID env) "")
                 (str_or (GA_API_SECRET env) "default-secret") event in
    try_catch
      (response <- do_fetch w request ;; ret (status_ok (fst response)))
      (fun _ => ret false).

(** [trackGoogleAdsConversion(conversionAction, value)] *)
Definition trackGoogleAdsConversion (w : World) (env : Env)
    (conversionAction : string) (value : option Z) : M bool :=
  if negb (present (GOOGLE_ADS_CONVERSION_ID env)) then ret false
  else
    try_catch
      (trackGA4Event w env
         {| event_name := "conversion";
            event_category := "google_ads";
            event_label := conversionAction;
            value := value;
            page_location := JUndefined;
            session_id := JUndefined;
            custom_parameters :=
              [ ("conversion_action", JStr conversionAction);
                ("currency", JStr "USD") ] |})
      (fun _ => ret false).

(** [trackPhoneCall(page, sessionId)]; the two calls inside [Promise.all]
    both start, in this order. *)
Definition trackPhoneCall (w : World) (env : Env) (page sessionId : JsValue)
  : M unit :=
  _ <- trackGA4Event w env
         {| event_name := "phone_call";
            event_category := "engagement";
            event_label := "click_to_call";
            value := Some 50%Z;
            page_location := page;
            session_id := sessionId;
            custom_parameters :=
              [ ("lead_type", JStr "phone_call");
                ("lead_quality", JStr "high") ] |} ;;
  _ <- trackGoogleAdsConversion w env "phone_call_conversion" (Some 50%Z) ;;
  ret tt.

(** [isCommercialLead(formData)] *)
Definition isCommercialLead (formData : JsValue) : M bool :=
  service <- lift (Js.get formData "service") ;;
  serviceText <- lift (Js.call_toLowerCase (Js.or_else service (JStr ""))) ;;
  message <- lift (Js.get formData "message") ;;
  messageText <- lift (Js.call_toLowerCase (Js.or_else message (JStr ""))) ;;
  ret (existsb (fun keyword =>
                  includes serviceText keyword || includes messageText keyword)
               commercialKeywords).

(** [calculateLeadValue(formData)] *)
Definition calculateLeadValue (formData : JsValue) : M Z :=
  let value := 25%Z in
  commercial <- isCommercialLead formData ;;
  let value := if commercial then (value + 75)%Z else value in
  s <- lift (Js.get formData "service") ;;
  service <- lift (Js.call_toLowerCase (Js.or_else s (JStr ""))) ;;
  let value :=
    if includes service "exterior" || includes service "commercial"
    then (value + 50)%Z
    else if includes service "interior" || includes service "cabinet"
    then (value + 25)%Z
    else value in
  m <- lift (Js.get formData "message") ;;
  message <- lift (Js.call_toLowerCase (Js.or_else m (JStr ""))) ;;
  let value :=
    if includes message "urgent" || includes message "asap"
       || includes message "soon"
    then (value + 25)%Z
    else value in
  ret value.

(** [trackFormSubmission(formData, page, sessionId)] *)
Definition trackFormSubmission (w : World) (env : Env)
    (formData page sessionId : JsValue) : M unit :=
  isCommercial <- isCommercialLead formData ;;
  leadValue <- calculateLeadValue formData ;;
  service <- lift (Js.get formData "service") ;;
  _ <- trackGA4Event w env
         {| event_name := "form_submit";
            event_category := "conversion";
            event_label := "estimate_request";
            value := Some leadValue;
            page_location := page;
            session_id := sessionId;
            custom_parameters :=
              [ ("form_type", JStr "estimate_request");
                ("service_type", service);
                ("lead_type",
                 JStr (if isCommercial then "commercial" else "residential"));
                ("lead_quality",
                 JStr (if (100 <? leadValue)%Z then "high"
                       else if (50 <? leadValue)%Z then "medium"
                       else "low")) ] |} ;;
  _ <- trackGoogleAdsConversion w env "estimate_request_conversion"
         (Some leadValue) ;;
  ret tt.

(** [trackChatInteraction(message, reply, page, sessionId, isHighValue)] *)
Definition trackChatInteraction (w : World) (env : Env)
    (message : string) (reply : JsValue) (page sessionId : string)
    (isHighValue : JsValue) : M unit :=
  let high := Js.truthy isHighValue in
  let engagementValue := if high then 25%Z else 5%Z in
  reply_length <- lift (Js.length_of reply) ;;
  _ <- trackGA4Event w env
         {| event_name := "chat_interaction";
            event_category := "engagement";
            event_label := if high then "high_value_chat" else "chat_message";
            value := Some engagementValue;
            page_location := JStr page;
            session_id := JStr sessionId;
            custom_parameters :=
              [ ("chat_type", JStr (if high then "high_value" else "standard"));
                ("message_length", JNum (Z.of_nat (String.length message)));
                ("reply_length", reply_length);
                ("lead_quality", JStr (if high then "high" else "low")) ] |} ;;
  if high
  then (_ <- trackGoogleAdsConversion w env "chat_engagement_conversion"
              (Some engagementValue) ;; ret tt)
  else ret tt.

(** [trackBusinessEvent(eventName, category, label, value, customData)] *)
Definition trackBusinessEvent (w : World) (env : Env)
    (eventName category label : string) (value : option Z)
    (customData : list (string * JsValue)) : M unit :=
  _ <- trackGA4Event w env
         {| event_name := eventName;
            event_category := category;
            event_label := label;
            value := value;
            page_location := JUndefined;
            session_id := JUndefined;
            custom_parameters := customData |} ;;
  ret tt.

End AnalyticsService.

(** ** ChatSession durable object (chatsession.ts) *)

Module ChatSession.

Definition highValueKeywords : list string :=
  [ "commercial"; "business"; "office"; "restaurant"; "store";
    "whole house"; "entire house"; "multiple rooms";
    "exterior"; "siding"; "trim";
    "estimate"; "quote"; "price"; "cost";
    "when can you start"; "schedule"; "appointment";
    "budget"; "timeline"; "project" ].

(** [detectHighValueLead(message, reply)].  The second argument is typed
    [string] in the source but arrives unvalidated from the completion
    response, hence [JsValue]. *)
Definition detectHighValueLead (message : string) (reply : JsValue) : bool :=
  let messageText := toLowerCase message in
  some_included highValueKeywords messageText.

Definition systemPrompt : string :=
  "You are Paint Guru, the AI assistant for Dependable Painting LLC, a premium painting contractor serving Baldwin and Mobile County, Alabama.

    BUSINESS INFO:
    - Owner: Licensed and insured painting contractor
    - Service Areas: Baldwin County (Fairhope, Daphne, Spanish Fort, Bay Minette) and Mobile County, Alabama
    - Services: Interior painting, exterior painting, cabinet painting, commercial painting, wood siding
    - Phone: (251) 525-4405
    - Email: just-paint-it@dependablepainting.work
    - Website: https://dependablepainting.work
    - Hours: Monday-Friday 7AM-7PM, Saturday 8AM-5PM
    - Warranty: 2-year warranty on all interior work, 5-year warranty on exterior work
    - Free estimates: Same-day estimates available

    PERSONALITY: Professional, knowledgeable, friendly, and focused on helping customers. You can recommend paint colors, explain surface preparation, discuss materials, and guide customers through the painting process.

    LEAD QUALIFICATION: Identify high-value leads (commercial projects, whole house painting, premium services) and encourage them to call immediately or fill out the contact form.

    If someone asks about scheduling, estimates, or specific projects, always encourage them to call (251) 525-4405 or visit the contact form for a free estimate.

    IMAGE ANALYSIS: If an image is provided, analyze the surfaces, recommend paint types, identify preparation needs, and suggest color schemes. Be specific about what you observe.".

(** Content of the new user turn sent to the completion endpoint. *)
Definition userContent (req : ChatMessage) : JsValue :=
  let text := message req ++ " (from " ++ str_or (page req) "website" ++ ")" in
  if present (imageUrl req)
  then JArr [ JObj [ ("type", JStr "text"); ("text", JStr text) ];
              JObj [ ("type", JStr "image_url");
                     ("image_url",
                      JObj [ ("url", JStr (str_or (imageUrl req) "")) ]) ] ]
  else JStr text.

(** [json.choices[0].message.content] *)
Definition replyOf (json : JsValue) : Completion JsValue :=
  match Js.get json "choices" with
  | Throw e => Throw e
  | Normal choices =>
      match Js.get0 choices with
      | Throw e => Throw e
      | Normal choice =>
          match Js.get choice "message" with
          | Throw e => Throw e
          | Normal msg => Js.get msg "content"
          end
      end
  end.

(** The request sent to the completion endpoint for stored history
    [history] and chat request [req]. *)
Definition completionRequest (env : Env) (history : list Turn)
    (req : ChatMessage) : Request :=
  CompletionRequest (AI_GATEWAY_URL env) (OPENAI_API_KEY env) "gpt-4o"
    ([ {| role := system; content := JStr systemPrompt |} ]
     ++ history
     ++ [ {| role := user; content := userContent req |} ])%list.

(** The payload enqueued for a high-value chat turn. *)
Definition leadPayload (w : World) (req : ChatMessage) (reply : JsValue)
  : JsValue :=
  JObj [ ("type", JStr "high_value_chat_lead");
         ("message", JStr (message req));
         ("reply", reply);
         ("page", JStr (str_or (page req) "unknown"));
         ("timestamp", JNum (now w)) ].

(** [fetch(request)], for the durable object whose id prints as [objectId]
    and a request whose JSON body is [req]. *)
Definition fetch (w : World) (env : Env) (objectId : string)
    (req : ChatMessage) : M ChatReply :=
  stored <- storage_get ;;
  let history := match stored with Some h => h | None => [] end in
  let payload := completionRequest env history req in
  aiResponse <- do_fetch w payload ;;
  json <- response_json aiResponse ;;
  reply <- lift (replyOf json) ;;
  let isHighValueLead := detectHighValueLead (message req) reply in
  (if isHighValueLead
   then queue_send w (leadPayload w req reply)
   else ret tt) ;;;
  let sessionId := objectId in
  waitUntil
    (AnalyticsService.trackChatInteraction w env (message req) reply
       (str_or (page req) "unknown") sessionId JUndefined) ;;;
  let updatedHistory :=
    (history
     ++ [ {| role := user; content := JStr (message req) |};
          {| role := assistant; content := reply |} ])%list in
  storage_put updatedHistory ;;;
  ret {| reply := reply; sessionId := sessionId;
         isHighValue := isHighValueLead |}.

End ChatSession.

(** ** NotificationService (lib/notifications.ts) *)

Module NotificationService.

(** [sendSMS(message, to)] *)
Definition sendSMS (w : World) (env : Env) (message : SmsBody)
    (to : option string) : M bool :=
  if negb (present (TWILIO_ACCOUNT_SID env))
     || negb (present (TWILIO_AUTH_TOKEN env))
     || negb (present (TWILIO_PHONE_NUMBER env))
  then ret false
  else
    let request :=
      TwilioRequest (str_or (TWILIO_ACCOUNT_SID env) "")
                    (str_or (TWILIO_AUTH_TOKEN env) "")
                    (str_or (TWILIO_PHONE_NUMBER env) "")
                    (str_or to (EMAIL_TO env))
                    message in
    try_catch
      (response <- do_fetch w request ;; ret (status_ok (fst response)))
      (fun _ => ret false).

(** [sendEmail(subject, body, to)] *)
Definition sendEmail (w : World) (env : Env) (subject : string)
    (body : EmailBody) (to : option string) : M bool :=
  if negb (present (SENDGRID_API_KEY env)) then ret false
  else
    let request :=
      SendGridRequest (str_or (SENDGRID_API_KEY env) "")
                      (str_or to (EMAIL_TO env))
                      (EMAIL_FROM env) subject body in
    try_catch
      (response <- do_fetch w request ;; ret (status_ok (fst response)))
      (fun _ => ret false).

Definition commercialKeywords : list string :=
  [ "commercial"; "business"; "office"; "restaurant"; "store";
    "warehouse"; "retail" ].

(** [isCommercialLead(payload)] *)
Definition isCommercialLead (payload : JsValue) : M bool :=
  service <- lift (Js.get payload "service") ;;
  serviceText <- lift (Js.call_toLowerCase (Js.or_else service (JStr ""))) ;;
  message <- lift (Js.get payload "message") ;;
  messageText <- lift (Js.call_toLowerCase (Js.or_else message (JStr ""))) ;;
  ret (existsb (fun keyword =>
                  includes serviceText keyword || includes messageText keyword)
               commercialKeywords).

(** The [isHighPriority] flag computed at the head of [processNotification],
    with the short-circuit order of the source. *)
Definition isHighPriority (payload : JsValue) : M bool :=
  type <- lift (Js.get payload "type") ;;
  if Js.is_str type "high_value_chat_lead" then ret true
  else
    leadValue <- lift (Js.get payload "leadValue") ;;
    if Js.is_str leadValue "high" then ret true
    else isCommercialLead payload.

(** [handleEstimateNotification(payload, isHighPriority)] *)
Definition handleEstimateNotification (w : World) (env : Env)
    (payload : JsValue) (isHighPriority : bool) : M unit :=
  let urgencyText :=
    if isHighPriority then "🚨 HIGH VALUE LEAD 🚨" else "📋 New Lead" in
  name <- lift (Js.get payload "name") ;;
  phone <- lift (Js.get payload "phone") ;;
  service <- lift (Js.get payload "service") ;;
  let smsMessage := SmsEstimate urgencyText name phone service in
  let emailSubject := urgencyText ++ " - Painting Estimate Request" in
  email <- lift (Js.get payload "email") ;;
  message <- lift (Js.get payload "message") ;;
  timestamp <- lift (Js.get payload "timestamp") ;;
  let emailBody :=
    EmailEstimate urgencyText name email phone service message timestamp in
  (if isHighPriority
   then (_ <- sendSMS w env smsMessage None ;; ret tt)
   else ret tt) ;;;
  _ <- sendEmail w env emailSubject emailBody None ;;
  ret tt.

(** [handleChatLeadNotification(payload)] *)
Definition handleChatLeadNotification (w : World) (env : Env)
    (payload : JsValue) : M unit :=
  message <- lift (Js.get payload "message") ;;
  preview <- lift (Js.opt_substring message 100) ;;
  let smsMessage := SmsChatLead preview in
  let emailSubject := "🚨 High-Value Chat Lead Detected" in
  page <- lift (Js.get payload "page") ;;
  reply <- lift (Js.get payload "reply") ;;
  timestamp <- lift (Js.get payload "timestamp") ;;
  let emailBody := EmailChatLead page message reply timestamp in
  _ <- sendSMS w env smsMessage None ;;
  _ <- sendEmail w env emailSubject emailBody None ;;
  ret tt.

(** [handleCallConversion(payload)] *)
Definition handleCallConversion (w : World) (env : Env) (payload : JsValue)
  : M unit :=
  let emailSubject := "📞 Phone Call Conversion Tracked" in
  page <- lift (Js.get payload "page") ;;
  timestamp <- lift (Js.get payload "timestamp") ;;
  let emailBody := EmailCallConversion page timestamp in
  _ <- sendEmail w env emailSubject emailBody None ;;
  ret tt.

(** [processNotification(payload)] *)
Definition processNotification (w : World) (env : Env) (payload : JsValue)
  : M unit :=
  high <- isHighPriority payload ;;
  type <- lift (Js.get payload "type") ;;
  if Js.is_str type "estimate_request"
  then handleEstimateNotification w env payload high
  else if Js.is_str type "high_value_chat_lead"
  then handleChatLeadNotification w env payload
  else if Js.is_str type "call_conversion"
  then handleCallConversion w env payload
  else ret tt.

End NotificationService.

(** ** Queue consumer (queue.ts) *)

Module Consumer.

Definition ack (m : Message) : M unit := emit (Acked (id m)).
Definition retry (m : Message) : M unit := emit (Retried (id m)).

(** The analytics branch of the loop body. *)
Definition trackAnalytics (w : World) (env : Env) (payload : JsValue)
  : M unit :=
  type <- lift (Js.get payload "type") ;;
  if Js.is_str type "estimate_request"
  then
    page <- lift (Js.get payload "page") ;;
    AnalyticsService.trackFormSubmission w env payload
      (Js.or_else page (JStr "unknown")) JUndefined
  else if Js.is_str type "high_value_chat_lead"
  then
    page <- lift (Js.get payload "page") ;;
    message <- lift (Js.get payload "message") ;;
    preview <- lift (Js.opt_substring message 100) ;;
    AnalyticsService.trackBusinessEvent w env
      "high_value_chat_detected" "lead_qualification" "chat_engagement"
      (Some 25%Z)
      [ ("page", page); ("message_preview", preview) ]
  else if Js.is_str type "call_conversion"
  then
    page <- lift (Js.get payload "page") ;;
    AnalyticsService.trackPhoneCall w env
      (Js.or_else page (JStr "unknown")) JUndefined
  else ret tt.

(** The body of the [for (const message of batch.messages)] loop. *)
Definition handleMessage (w : World) (env : Env) (message : Message)
  : M unit :=
  try_catch
    (let payload := body message in
     NotificationService.processNotification w env payload ;;;
     trackAnalytics w env payload ;;;
     ack message)
    (fun _ => retry message).

(** [queue(batch, env, ctx)] *)
Definition queue (w : World) (env : Env) (messages : list Message) : M unit :=
  for_of messages (handleMessage w env).

End Consumer.

(** ** Typed payloads ([NotificationPayload] in lib/notifications.ts) *)

Module Payload.

Inductive PayloadType : Type :=
| estimate_request
| high_value_chat_lead
| call_conversion.

Inductive LeadValue : Type := high | medium | low.

Record t : Type := {
  type : PayloadType;
  name : option string;
  email : option string;
  phone : option string;
  service : option string;
  message : option string;
  reply : option string;
  page : option string;
  timestamp : Z;
  leadValue : option LeadValue
}.

Definition type_tag (ty : PayloadType) : string :=
  match ty with
  | estimate_request => "estimate_request"
  | high_value_chat_lead => "high_value_chat_lead"
  | call_conversion => "call_conversion"
  end.

Definition lead_tag (v : LeadValue) : string :=
  match v with
  | high => "high"
  | medium => "medium"
  | low => "low"
  end.

Definition opt (o : option string) : JsValue :=
  match o with
  | Some s => JStr s
  | None => JUndefined
  end.

(** The JavaScript object a well-typed payload is at run time; an absent
    optional property reads as [undefined]. *)
Definition toJs (p : t) : JsValue :=
  JObj [ ("type", JStr (type_tag (type p)));
         ("name", opt (name p));
         ("email", opt (email p));
         ("phone", opt (phone p));
         ("service", opt (service p));
         ("message", opt (message p));
         ("reply", opt (reply p));
         ("page", opt (page p));
         ("timestamp", JNum (timestamp p));
         ("leadValue", opt (option_map lead_tag (leadValue p))) ].

(** [payload.leadValue === 'high'] *)
Definition leadValue_high (p : t) : bool :=
  match leadValue p with
  | Some high => true
  | _ => false
  end.

(** [(field || '').toLowerCase()] on a well-typed optional string. *)
Definition text (o : option string) : string :=
  toLowerCase (match o with Some s => s | None => "" end).

(** Value of [isCommercialLead(payload)] on a well-typed payload. *)
Definition commercial (p : t) : bool :=
  existsb (fun keyword =>
             includes (text (service p)) keyword
             || includes (text (message p)) keyword)
          NotificationService.commercialKeywords.

(** Value of the [isHighPriority] flag on a well-typed payload. *)
Definition highPriority (p : t) : bool :=
  match type p with
  | high_value_chat_lead => true
  | _ => leadValue_high p || commercial p
  end.

(** Whether the handler selected by the payload type calls [sendSMS]. *)
Definition sendsSms (p : t) : bool :=
  match type p with
  | estimate_request => highPriority p
  | high_value_chat_lead => true
  | call_conversion => false
  end.

End Payload.

(** ** Observations on effect traces *)

Definition is_sms (e : Effect) : bool :=
  match e with
  | Fetched (TwilioRequest _ _ _ _ _) => true
  | _ => false
  end.

Definition is_email (e : Effect) : bool :=
  match e with
  | Fetched (SendGridRequest _ _ _ _ _) => true
  | _ => false
  end.

Definition is_analytics (e : Effect) : bool :=
  match e with
  | Fetched (GA4Request _ _ _) => true
  | _ => false
  end.

Definition is_enqueue (e : Effect) : bool :=
  match e with
  | QueueSendJson _ => true
  | _ => false
  end.

Definition sms_attempts (es : list Effect) : nat :=
  List.length (filter is_sms es).
Definition email_attempts (es : list Effect) : nat :=
  List.length (filter is_email es).
Definition analytics_attempts (es : list Effect) : nat :=
  List.length (filter is_analytics es).
Definition enqueue_attempts (es : list Effect) : nat :=
  List.length (filter is_enqueue es).

(** Per-message result of the consumer: the state machine of a queue message
    ends in one of these. *)
Inductive Outcome : Type := Acknowledged | Retryable.

Fixpoint outcomes (es : list Effect) : list (string * Outcome) :=
  match es with
  | [] => []
  | Acked i :: rest => (i, Acknowledged) :: outcomes rest
  | Retried i :: rest => (i, Retryable) :: outcomes rest
  | _ :: rest => outcomes rest
  end.

Definition isGA4 (r : Request) : bool :=
  match r with
  | GA4Request _ _ _ => true
  | _ => false
  end.

(** The effect by which a message reaches its final state. *)
Definition settle (o : Outcome) (messageId : string) : Effect :=
  match o with
  | Acknowledged => Acked messageId
  | Retryable => Retried messageId
  end.

Definition smsConfigured (env : Env) : bool :=
  present (TWILIO_ACCOUNT_SID env) && present (TWILIO_AUTH_TOKEN env)
  && present (TWILIO_PHONE_NUMBER env).

Definition emailConfigured (env : Env) : bool :=
  present (SENDGRID_API_KEY env).

(** Effects of delivering one message to the consumer. *)
Definition deliver (w : World) (env : Env) (m : Message) : list Effect :=
  effects (snd (Consumer.handleMessage w env m (initial None))).

(** Result, final state of one chat request against stored history [h]. *)
Definition chat (w : World) (env : Env) (objectId : string)
    (req : ChatMessage) (h : option (list Turn))
  : Completion ChatReply * State :=
  ChatSession.fetch w env objectId req (initial h).

(** [st] after the requests [rs] have been sent, in order. *)
Definition log (st : State) (rs : list Request) : State :=
  {| storage_history := storage_history st;
     effects := (effects st ++ map Fetched rs)%list |}.

(** History read by [ChatSession.fetch]: [stored || []]. *)
Definition historyOf (h : option (list Turn)) : list Turn :=
  match h with Some turns => turns | None => [] end.

(** The completion call ended in a way the handler cannot read a reply
    from: the request rejected, the body is not JSON, or reading
    [json.choices[0].message.content] throws. *)
Definition unreadable (res : FetchResult) : Prop :=
  match res with
  | Rejected => True
  | Responded _ None => True
  | Responded _ (Some json) => exists e, ChatSession.replyOf json = Throw e
  end.

(** The completion call failed in the sense of the specification: a
    non-success status, or a response that does not expose a string at
    [choices[0].message.content]. *)
Definition completionFailed (res : FetchResult) : Prop :=
  match res with
  | Rejected => True
  | Responded _ None => True
  | Responded status (Some json) =>
      status_ok status = false \/
      forall r, ChatSession.replyOf json <> Normal (JStr r)
  end.

(** The completion call succeeded with reply text [r]. *)
Definition completionSucceeded (res : FetchResult) (r : string) : Prop :=
  exists status json,
    res = Responded status (Some json) /\ status_ok status = true /\
    ChatSession.replyOf json = Normal (JStr r).

(** The body carries one of the three payload tags in [type]. *)
Definition recognised (body : JsValue) : bool :=
  match Js.get body "type" with
  | Normal type =>
      Js.is_str type "estimate_request"
      || Js.is_str type "high_value_chat_lead"
      || Js.is_str type "call_conversion"
  | Throw _ => false
  end.

(** Requests issued by the three best-effort sinks, by configuration. *)
Definition ga4Requests (env : Env) (event : AnalyticsEvent) : list Request :=
  if present (GA_MEASUREMENT_ID env)
  then [ GA4Request (str_or (GA_MEASUREMENT_ID env) "")
                    (str_or (GA_API_SECRET env) "default-secret") event ]
  else [].

Definition smsRequests (env : Env) (message : SmsBody) (to : option string)
  : list Request :=
  if smsConfigured env
  then [ TwilioRequest (str_or (TWILIO_ACCOUNT_SID env) "")
                       (str_or (TWILIO_AUTH_TOKEN env) "")
                       (str_or (TWILIO_PHONE_NUMBER env) "")
                       (str_or to (EMAIL_TO env)) message ]
  else [].

Definition emailRequests (env : Env) (subject : string) (body : EmailBody)
    (to : option string) : list Request :=
  if emailConfigured env
  then [ SendGridRequest (str_or (SENDGRID_API_KEY env) "")
                         (str_or to (EMAIL_TO env))
                         (EMAIL_FROM env) subject body ]
  else [].

Definition adsRequests (env : Env) (action : string) (v : option Z)
  : list Request :=
  if present (GOOGLE_ADS_CONVERSION_ID env)
  then ga4Requests env
         {| event_name := "conversion";
            event_category := "google_ads";
            event_label := action;
            value := v;
            page_location := JUndefined;
            session_id := JUndefined;
            custom_parameters :=
              [ ("conversion_action", JStr action);
                ("currency", JStr "USD") ] |}
  else [].


(** ** Sample inputs *)

Module Sample.

Definition env : Env := {|
  OPENAI_API_KEY := "sk-test";
  AI_GATEWAY_URL := "https://gateway.example/openai/v1/chat/completions";
  EMAIL_FROM := "noreply@dependablepainting.work";
  EMAIL_TO := "just-paint-it@dependablepainting.work";
  SENDGRID_API_KEY := Some "SG.test";
  TWILIO_ACCOUNT_SID := Some "ACtest";
  TWILIO_AUTH_TOKEN := Some "token";
  TWILIO_PHONE_NUMBER := Some "+12515550100";
  GA_MEASUREMENT_ID := Some "G-TEST";
  GA_API_SECRET := Some "secret";
  GOOGLE_ADS_CONVERSION_ID := None
|}.

(** A completion response body exposing [content] at
    [choices[0].message.content]. *)
Definition completionBody (content : JsValue) : JsValue :=
  JObj [ ("choices",
          JArr [ JObj [ ("message",
                         JObj [ ("role", JStr "assistant");
                                ("content", content) ]) ] ]) ].

(** A world by the behaviour of each endpoint. *)
Definition world (completion twilio sendgrid ga4 : FetchResult)
    (queueOk : bool) : World :=
  {| net := fun r =>
              match r with
              | CompletionRequest _ _ _ _ => completion
              | TwilioRequest _ _ _ _ _ => twilio
              | SendGridRequest _ _ _ _ _ => sendgrid
              | GA4Request _ _ _ => ga4
              end;
     queue_accepts := fun _ => queueOk;
     now := 1700000000000%Z |}.

Definition ok200 : FetchResult := Responded 200 (Some (JObj [])).
Definition error500 : FetchResult := Responded 500 (Some (JObj [])).

Definition hello : ChatMessage :=
  {| message := "What paint colors do you recommend?";
     page := Some "https://dependablepainting.work/";
     imageUrl := None |}.

Definition commercial : ChatMessage :=
  {| message := "Do you do commercial office painting?";
     page := Some "https://dependablepainting.work/services";
     imageUrl := None |}.

Definition earlier : list Turn :=
  [ {| role := user; content := JStr "Hi" |};
    {| role := assistant; content := JStr "Hello! How can I help?" |} ].

Definition estimate (service message : string)
    (leadValue : option Payload.LeadValue) : Payload.t :=
  {| Payload.type := Payload.estimate_request;
     Payload.name := Some "John Doe";
     Payload.email := Some "john@example.com";
     Payload.phone := Some "(555) 123-4567";
     Payload.service := Some service;
     Payload.message := Some message;
     Payload.reply := None;
     Payload.page := None;
     Payload.timestamp := 1700000000000%Z;
     Payload.leadValue := leadValue |}.

Definition delivered (body : JsValue) : Message :=
  {| id := "msg-1"; timestamp := 1700000000000%Z; body := body |}.

End Sample.

(** ** Worlds that differ in one endpoint *)

(** [w] with the completion endpoint answering 200 and reply [r]. *)
Definition answering (w : World) (r : JsValue) : World :=
  {| net := fun q =>
              match q with
              | CompletionRequest _ _ _ _ =>
                  Responded 200 (Some (Sample.completionBody r))
              | _ => net w q
              end;
     queue_accepts := queue_accepts w;
     now := now w |}.



(** ** Object literals with spread *)

From Stdlib Require Import DecimalString.

Module JsObject.

(** [k in fields] *)
Definition has_key (k : string) (fields : list (string * JsValue)) : bool :=
  existsb (fun kv => k =? fst kv) fields.

(** [fields[k] = v] *)
Fixpoint assign (k : string) (v : JsValue) (fields : list (string * JsValue))
  : list (string * JsValue) :=
  match fields with
  | [] => [(k, v)]
  | (k', v') :: rest =>
      if k =? k' then (k', v) :: rest else (k', v') :: assign k v rest
  end.

(** The property name of array index [n]. *)
Definition index_key (n : nat) : string :=
  NilEmpty.string_of_uint (Nat.to_uint n).

Fixpoint indexed (n : nat) (items : list JsValue) : list (string * JsValue) :=
  match items with
  | [] => []
  | x :: rest => (index_key n, x) :: indexed (S n) rest
  end.

Definition chars (s : string) : list JsValue :=
  map (fun c => JStr (String c EmptyString)) (list_ascii_of_string s).

(** The own enumerable properties a spread copies. *)
Definition own_properties (v : JsValue) : list (string * JsValue) :=
  match v with
  | JObj fields => fields
  | JArr items => indexed 0 items
  | JStr s => indexed 0 (chars s)
  | _ => []
  end.

(** [{ ...target, ...v }]: the own properties of [v] are assigned in
    order, each with the value a read of [v] gives for its key. *)
Definition spread (target : list (string * JsValue)) (v : JsValue)
  : list (string * JsValue) :=
  let own := own_properties v in
  fold_left (fun acc kv => assign (fst kv) (Js.lookup (fst kv) own) acc)
            own target.

End JsObject.

(** ** Conversions to string *)

Module Conversions.

(** [ToString(v)] and [ToPrimitive(v)] return rather than throw.  A value
    read from JSON holds no function.  An object therefore converts through
    the inherited [Object.prototype.toString] unless an own property named
    [toString] hides it: the own property is not callable, and [valueOf],
    own or inherited, gives no primitive either, so the conversion throws
    TypeError.  An array converts through [join], which converts each
    element in turn. *)
Fixpoint converts (v : JsValue) : bool :=
  match v with
  | JArr items => forallb converts items
  | JObj fields => negb (JsObject.has_key "toString" fields)
  | _ => true
  end.

(** A value interpolated in a template literal. *)
Definition interpolate (v : JsValue) : Completion JsValue :=
  if converts v then Normal v else Throw TypeError.

(** [new Date(v).toLocaleString()]: the constructor converts an object or an
    array to a primitive first; an invalid date has a locale string too. *)
Definition localeDate (v : JsValue) : Completion JsValue :=
  if converts v then Normal v else Throw TypeError.

(** Every code point of [s] is at most U+00FF: in UTF-8, no byte is a lead
    byte above 0xC3. *)
Definition latin1 (s : string) : bool :=
  forallb (fun c => (nat_of_ascii c <? 196)%nat) (list_ascii_of_string s).

(** [btoa(s)] returns or throws; the encoded text itself is not computed (the
    request records the credentials it encodes). *)
Definition btoa (s : string) : Completion string :=
  if latin1 s then Normal s else Throw InvalidCharacterError.

End Conversions.

(** ** NotificationService with its conversions (lib/notifications.ts) *)

(** Besides the property reads, two steps of lib/notifications.ts can throw:
    a template literal converts every value it interpolates to a string, and
    [sendSMS] encodes the Twilio credentials with [btoa] before it enters
    its [try] block.  Both succeed for a payload of strings and numbers and
    for credentials within Latin-1, which is what [NotificationService]
    above relies on.  This module gives the same functions with the two
    steps written out, for an arbitrary payload and arbitrary bindings. *)

Module Notifier.

(** [sendSMS(message, to)] *)
Definition sendSMS (w : World) (env : Env) (message : SmsBody)
    (to : option string) : M bool :=
  if negb (present (TWILIO_ACCOUNT_SID env))
     || negb (present (TWILIO_AUTH_TOKEN env))
     || negb (present (TWILIO_PHONE_NUMBER env))
  then ret false
  else
    _ <- lift (Conversions.btoa
                 (str_or (TWILIO_ACCOUNT_SID env) "" ++ ":"
                  ++ str_or (TWILIO_AUTH_TOKEN env) "")) ;;
    let request :=
      TwilioRequest (str_or (TWILIO_ACCOUNT_SID env) "")
                    (str_or (TWILIO_AUTH_TOKEN env) "")
                    (str_or (TWILIO_PHONE_NUMBER env) "")
                    (str_or to (EMAIL_TO env))
                    message in
    try_catch
      (response <- do_fetch w request ;; ret (status_ok (fst response)))
      (fun _ => ret false).

(** [`${payload.key}`] *)
Definition field (payload : JsValue) (key : string) : M JsValue :=
  v <- lift (Js.get payload key) ;;
  lift (Conversions.interpolate v).

(** [handleEstimateNotification(payload, isHighPriority)]; a field that the
    templates interpolate more than once is converted once here, since a
    conversion that has succeeded succeeds again. *)
Definition handleEstimateNotification (w : World) (env : Env)
    (payload : JsValue) (isHighPriority : bool) : M unit :=
  let urgencyText :=
    if isHighPriority then "🚨 HIGH VALUE LEAD 🚨" else "📋 New Lead" in
  name <- field payload "name" ;;
  phone <- field payload "phone" ;;
  service <- field payload "service" ;;
  let smsMessage := SmsEstimate urgencyText name phone service in
  let emailSubject := urgencyText ++ " - Painting Estimate Request" in
  email <- field payload "email" ;;
  message <- field payload "message" ;;
  timestamp <- lift (Js.get payload "timestamp") ;;
  timestamp <- lift (Conversions.localeDate timestamp) ;;
  let emailBody :=
    EmailEstimate urgencyText name email phone service message timestamp in
  (if isHighPriority
   then (_ <- sendSMS w env smsMessage None ;; ret tt)
   else ret tt) ;;;
  _ <- NotificationService.sendEmail w env emailSubject emailBody None ;;
  ret tt.

(** [handleChatLeadNotification(payload)] *)
Definition handleChatLeadNotification (w : World) (env : Env)
    (payload : JsValue) : M unit :=
  message <- lift (Js.get payload "message") ;;
  preview <- lift (Js.opt_substring message 100) ;;
  preview <- lift (Conversions.interpolate preview) ;;
  let smsMessage := SmsChatLead preview in
  let emailSubject := "🚨 High-Value Chat Lead Detected" in
  page <- field payload "page" ;;
  message <- field payload "message" ;;
  reply <- field payload "reply" ;;
  timestamp <- lift (Js.get payload "timestamp") ;;
  timestamp <- lift (Conversions.localeDate timestamp) ;;
  let emailBody := EmailChatLead page message reply timestamp in
  _ <- sendSMS w env smsMessage None ;;
  _ <- NotificationService.sendEmail w env emailSubject emailBody None ;;
  ret tt.

(** [handleCallConversion(payload)] *)
Definition handleCallConversion (w : World) (env : Env) (payload : JsValue)
  : M unit :=
  let emailSubject := "📞 Phone Call Conversion Tracked" in
  page <- field payload "page" ;;
  timestamp <- lift (Js.get payload "timestamp") ;;
  timestamp <- lift (Conversions.localeDate timestamp) ;;
  let emailBody := EmailCallConversion page timestamp in
  _ <- NotificationService.sendEmail w env emailSubject emailBody None ;;
  ret tt.

(** [processNotification(payload)] *)
Definition processNotification (w : World) (env : Env) (payload : JsValue)
  : M unit :=
  high <- NotificationService.isHighPriority payload ;;
  type <- lift (Js.get payload "type") ;;
  if Js.is_str type "estimate_request"
  then handleEstimateNotification w env payload high
  else if Js.is_str type "high_value_chat_lead"
  then handleChatLeadNotification w env payload
  else if Js.is_str type "call_conversion"
  then handleCallConversion w env payload
  else ret tt.

(** The body of the consumer's loop, around this [processNotification]. *)
Definition handleMessage (w : World) (env : Env) (message : Message)
  : M unit :=
  try_catch
    (let payload := body message in
     processNotification w env payload ;;;
     Consumer.trackAnalytics w env payload ;;;
     Consumer.ack message)
    (fun _ => Consumer.retry message).

(** The effects of delivering one message. *)
Definition deliver (w : World) (env : Env) (m : Message) : list Effect :=
  effects (snd (handleMessage w env m (initial None))).

End Notifier.

(** ** The platform under the route handlers *)

(** What the handlers get from the runtime and its bindings, besides the
    [World]: the D1 database accepting or rejecting a row, the durable object
    id of a session name, the UUID generated during the request, and the
    relational operator [v > n] on an arbitrary value. *)
Record Platform : Type := {
  db_accepts : list JsValue -> bool;
  idFromName : string -> string;
  randomUUID : string;
  js_gt : JsValue -> Z -> bool
}.

Module Http.

Inductive Body : Type :=
| Text (s : string)
| Json (v : JsValue)
| Redirect (location : string).

Record Response : Type := { status : Z; content : Body }.

(** [Response.json(v)] and [Response.json(v, { status })] *)
Definition json (status : Z) (v : JsValue) : Response :=
  {| status := status; content := Json v |}.

(** The string starts with a URL scheme: a letter, then letters, digits,
    [+], [-] or [.], then a colon. *)
Fixpoint scheme_rest (s : string) : bool :=
  match s with
  | EmptyString => false
  | String c s' =>
      if (c =? ":")%char then true
      else
        let n := nat_of_ascii c in
        if is_upper c || is_lower c || ((48 <=? n)%nat && (n <=? 57)%nat)
           || (c =? "+")%char || (c =? "-")%char || (c =? ".")%char
        then scheme_rest s'
        else false
  end.

Definition has_scheme (s : string) : bool :=
  match s with
  | EmptyString => false
  | String c s' => (is_upper c || is_lower c) && scheme_rest s'
  end.

(** [Response.redirect(url, status)] for a redirect status.  The URL is
    parsed on its own, without a base: a string with no scheme, such as a
    path, is not a URL and the call throws TypeError.  (The handlers pass
    string literals only; a string with a scheme is taken to parse.) *)
Definition redirect (url : string) (status : Z) : Completion Response :=
  if has_scheme url
  then Normal {| status := status; content := Redirect url |}
  else Throw TypeError.

End Http.

(** ** AnalyticsService, page engagement (lib/analytics.ts) *)

Module Engagement.

(** [calculateEngagementLevel(timeOnPage, scrollDepth)] *)
Definition calculateEngagementLevel (pf : Platform)
    (timeOnPage scrollDepth : JsValue) : string :=
  if js_gt pf timeOnPage 120000 && js_gt pf scrollDepth 75 then "high"
  else if js_gt pf timeOnPage 60000 && js_gt pf scrollDepth 50 then "medium"
  else "low".

End Engagement.

(** ** Chat route (routes/chat.ts) *)

Module ChatRoute.

(** The durable object namespace: stored history by object id. *)
Definition Sessions : Type := string -> option (list Turn).

Definition put (sessions : Sessions) (objectId : string)
    (h : option (list Turn)) : Sessions :=
  fun i => if i =? objectId then h else sessions i.

(** [handleChat(request, env, ctx)] for a request with header
    [X-Session-ID] = [header] and JSON body [req]: the result of the
    object's [fetch], the namespace afterwards and the effects. *)
Definition handleChat (w : World) (pf : Platform) (env : Env)
    (header : option string) (req : ChatMessage) (sessions : Sessions)
  : Completion ChatReply * Sessions * list Effect :=
  let sessionId := str_or header (randomUUID pf) in
  let objectId := idFromName pf sessionId in
  let run := ChatSession.fetch w env objectId req (initial (sessions objectId)) in
  (fst run, put sessions objectId (storage_history (snd run)),
   effects (snd run)).

End ChatRoute.

(** ** Estimate route (routes/estimate.ts) *)

Module EstimateRoute.

(** Where a request that returns no response ends. *)
Inductive Stage : Type :=
| BodyNotJson       (* request.json() rejects *)
| BodyNotObject     (* destructuring null or undefined throws *)
| InsertFailed      (* the D1 statement rejects *)
| EnqueueFailed     (* NOTIFY_QUEUE.send rejects *)
| RedirectFailed.   (* Response.redirect throws *)

Inductive Result : Type :=
| Answered (response : Http.Response)
| Failed (stage : Stage).

(** [const { name, email, phone, service, message } = data] followed by the
    values bound to the INSERT statement. *)
Definition leadRow (w : World) (data : JsValue) : Completion (list JsValue) :=
  match Js.get data "name", Js.get data "email", Js.get data "phone",
        Js.get data "service", Js.get data "message" with
  | Normal name, Normal email, Normal phone, Normal service, Normal message =>
      Normal [ name; email; phone; service; message; JNum (now w) ]
  | _, _, _, _, _ => Throw TypeError
  end.

(** [{ type: 'estimate_request', ...data, timestamp: Date.now() }] *)
Definition estimatePayload (w : World) (data : JsValue) : JsValue :=
  JObj (JsObject.assign "timestamp" (JNum (now w))
          (JsObject.spread [ ("type", JStr "estimate_request") ] data)).

(** [handleEstimate(request, env, ctx)] for a request whose body parses to
    [json] (or does not) and whose [referer] header is [referer], against
    the rows [leads] of the Leads table. *)
Definition handleEstimate (w : World) (pf : Platform) (env : Env)
    (json : option JsValue) (referer : option string)
    (leads : list (list JsValue))
  : Result * list (list JsValue) * list Effect :=
  match json with
  | None => (Failed BodyNotJson, leads, [])
  | Some data =>
      match leadRow w data with
      | Throw _ => (Failed BodyNotObject, leads, [])
      | Normal row =>
          if db_accepts pf row
          then
            let sent := queue_send w (estimatePayload w data) (initial None) in
            match fst sent with
            | Throw _ =>
                (Failed EnqueueFailed, (leads ++ [row])%list, effects (snd sent))
            | Normal _ =>
                let tracked :=
                  waitUntil
                    (AnalyticsService.trackFormSubmission w env data
                       (JStr (str_or referer "unknown")) JUndefined)
                    (snd sent) in
                (match Http.redirect "/thank-you.html" 303 with
                 | Normal response => Answered response
                 | Throw _ => Failed RedirectFailed
                 end,
                 (leads ++ [row])%list, effects (snd tracked))
            end
          else (Failed InsertFailed, leads, [])
      end
  end.

End EstimateRoute.

(** ** Image upload routes *)

(** An entry of a submitted form: missing, a text field or a file. *)
Inductive FormEntry : Type :=
| Absent
| TextField (text : string)
| FileField (name type : string) (size : Z).

(** [10 * 1024 * 1024] *)
Definition maxUploadSize : Z := 10 * 1024 * 1024.

(** The chat image upload ([handleImageUpload] with analytics tracking). *)
Module ChatUpload.

(** [s.split(sep)[0]] *)
Fixpoint firstSegment (sep : ascii) (s : string) : string :=
  match s with
  | EmptyString => EmptyString
  | String c rest =>
      if Ascii.eqb c sep then EmptyString else String c (firstSegment sep rest)
  end.

(** [formData.get('sessionId')] as it is serialised in the event. *)
Definition sessionValue (e : FormEntry) : JsValue :=
  match e with
  | Absent => JNull
  | TextField s => JStr s
  | FileField _ _ _ => JObj []
  end.

Definition imageUrl (pf : Platform) : string :=
  "https://imagedelivery.net/VwxTcpKX2CusqbCCDB94Nw/"
  ++ firstSegment "-" (randomUUID pf) ++ "/public".

(** [handleImageUpload(request, env, ctx)] for a request with method
    [method] whose form data is [form] ([None] when [request.formData()]
    rejects): the form gives the [image] and [sessionId] entries.  The
    source also builds a storage key [filename] from the session id, the
    clock and the file extension; it is never used. *)
Definition handleImageUpload (w : World) (pf : Platform) (env : Env)
    (method : string) (form : option (FormEntry * FormEntry))
  : M Http.Response :=
  if negb (method =? "POST")
  then ret {| Http.status := 405; Http.content := Http.Text "Method not allowed" |}
  else
    try_catch
      (entries <- match form with
                  | Some f => ret f
                  | None => throw TypeError
                  end ;;
       match fst entries with
       | Absent | TextField _ =>
           ret (Http.json 400
                  (JObj [ ("error", JStr "No valid image file provided") ]))
       | FileField name type size =>
           if (maxUploadSize <? size)%Z
           then ret (Http.json 400
                       (JObj [ ("error",
                                JStr "File too large. Max size is 10MB.") ]))
           else if negb (startsWith type "image/")
           then ret (Http.json 400
                       (JObj [ ("error", JStr "File must be an image") ]))
           else
             AnalyticsService.trackBusinessEvent w env
               "image_upload" "chat_engagement" "image_analysis_request"
               (Some 10%Z)
               [ ("file_size", JNum size); ("file_type", JStr type);
                 ("session_id", sessionValue (snd entries)) ] ;;;
             ret (Http.json 200
                    (JObj [ ("success", JBool true);
                            ("imageUrl", JStr (imageUrl pf));
                            ("message",
                             JStr "Image uploaded successfully. You can now ask questions about this image!") ]))
       end)
      (fun _ =>
         ret (Http.json 500 (JObj [ ("error", JStr "Failed to upload image") ]))).

End ChatUpload.

(** The estimate image upload (routes/upload.ts). *)
Module UploadRoute.

Definition allowedTypes : list string :=
  [ "image/jpeg"; "image/png"; "image/webp"; "image/gif" ].

(** [allowedTypes.includes(file.type)] *)
Definition allowed (type : string) : bool :=
  existsb (fun t => t =? type) allowedTypes.

(** [handleImageUpload(request, env, ctx)] for a request with method
    [method] whose form data has the [image] entry [image] ([None] when
    [request.formData()] rejects). *)
Definition handleImageUpload (pf : Platform) (method : string)
    (image : option FormEntry) : Completion Http.Response :=
  if negb (method =? "POST")
  then Normal {| Http.status := 405; Http.content := Http.Text "Method not allowed" |}
  else
    match image with
    | None =>
        Normal (Http.json 500
                  (JObj [ ("error", JStr "Upload failed. Please try again.") ]))
    | Some Absent | Some (TextField EmptyString) =>
        Normal (Http.json 400 (JObj [ ("error", JStr "No image file provided") ]))
    | Some (TextField (String _ _)) =>
        Normal (Http.json 400
                  (JObj [ ("error",
                           JStr "Invalid file type. Please upload a JPEG, PNG, WebP, or GIF image.") ]))
    | Some (FileField name type size) =>
        if negb (allowed type)
        then Normal (Http.json 400
                       (JObj [ ("error",
                                JStr "Invalid file type. Please upload a JPEG, PNG, WebP, or GIF image.") ]))
        else if (maxUploadSize <? size)%Z
        then Normal (Http.json 400
                       (JObj [ ("error",
                                JStr "File too large. Please upload an image smaller than 10MB.") ]))
        else
          Normal (Http.json 200
                    (JObj [ ("success", JBool true);
                            ("imageUrl",
                             JStr ("https://placeholder-storage.com/images/"
                                   ++ randomUUID pf ++ "-" ++ name));
                            ("fileName", JStr name);
                            ("fileSize", JNum size);
                            ("message",
                             JStr "Image uploaded successfully (placeholder implementation)") ]))
    end.

End UploadRoute.

(** ** Observations on requests *)

(** The endpoint answered the request with a success status. *)
Definition answered_ok (w : World) (r : Request) : bool :=
  match net w r with
  | Responded status _ => status_ok status
  | Rejected => false
  end.

(** [btoa] accepts the Twilio credentials. *)
Definition smsEncodable (env : Env) : bool :=
  Conversions.latin1
    (str_or (TWILIO_ACCOUNT_SID env) "" ++ ":"
     ++ str_or (TWILIO_AUTH_TOKEN env) "").

(** The request is an analytics event, or a notification from [EMAIL_FROM]
    to [EMAIL_TO]. *)
Definition toOwner (env : Env) (r : Request) : bool :=
  match r with
  | TwilioRequest _ _ _ to _ => to =? EMAIL_TO env
  | SendGridRequest _ to from _ _ =>
      (to =? EMAIL_TO env) && (from =? EMAIL_FROM env)
  | GA4Request _ _ _ => true
  | CompletionRequest _ _ _ _ => false
  end.

(** What a delivery may do: requests of the kind above and the settling call. *)
Definition deliveryEffect (env : Env) (e : Effect) : bool :=
  match e with
  | Fetched r => toOwner env r
  | Acked _ | Retried _ => true
  | QueueSendJson _ => false
  end.

(** What a chat request may do: the completion call, the queue send, and an
    analytics event [chat_interaction] with label [chat_message] and value 5. *)
Definition chatEffect (e : Effect) : bool :=
  match e with
  | Fetched (CompletionRequest _ _ _ _) => true
  | QueueSendJson _ => true
  | Fetched (GA4Request _ _ ev) =>
      (event_name ev =? "chat_interaction")
      && (event_label ev =? "chat_message")
      && match value ev with
         | Some v => (v =? 5)%Z
         | None => false
         end
  | _ => false
  end.

(** Calls of the completion endpoint. *)
Definition is_completion (e : Effect) : bool :=
  match e with
  | Fetched (CompletionRequest _ _ _ _) => true
  | _ => false
  end.

Definition completion_attempts (es : list Effect) : nat :=
  List.length (filter is_completion es).

(** The two turns a successful chat request appends. *)
Definition exchange (req : ChatMessage) (r : JsValue) : list Turn :=
  [ {| role := user; content := JStr (message req) |};
    {| role := assistant; content := r |} ].

(** In world [w], a chat request [req] against stored history [h] gets the
    reply [r] and, if it is high-value, its queue send is accepted. *)
Definition answers (w : World) (env : Env) (h : option (list Turn))
    (req : ChatMessage) (r : JsValue) : Prop :=
  exists status json,
    net w (ChatSession.completionRequest env (historyOf h) req)
    = Responded status (Some json) /\
    ChatSession.replyOf json = Normal r /\
    (ChatSession.detectHighValueLead (message req) r = true ->
     queue_accepts w (ChatSession.leadPayload w req r) = true).

(** ** Sample platform and requests for the route handlers *)

Module Demo.

Definition platform : Platform :=
  {| db_accepts := fun _ => true;
     idFromName := fun name => "do:" ++ name;
     randomUUID := "123e4567-e89b-12d3-a456-426614174000";
     js_gt := fun v n =>
                match v with
                | JNum z => (n <? z)%Z
                | _ => false
                end |}.

(** A platform whose database rejects every row. *)
Definition brokenDb : Platform :=
  {| db_accepts := fun _ => false;
     idFromName := idFromName platform;
     randomUUID := randomUUID platform;
     js_gt := js_gt platform |}.

(** A world where every endpoint answers 200 with the reply "Sure!". *)
Definition world (queueOk : bool) : World :=
  Sample.world (Responded 200 (Some (Sample.completionBody (JStr "Sure!"))))
    Sample.ok200 Sample.ok200 Sample.ok200 queueOk.

(** A namespace holding one earlier conversation. *)
Definition sessions : ChatRoute.Sessions :=
  fun i => if i =? "do:alice" then Some Sample.earlier else None.

Definition form : JsValue :=
  JObj [ ("name", JStr "John Doe");
         ("email", JStr "john@example.com");
         ("phone", JStr "(555) 123-4567");
         ("service", JStr "Interior Painting");
         ("message", JStr "Need quote for living room") ].

End Demo.

(** Order of the engagement levels. *)
Definition levelRank (level : string) : nat :=
  if level =? "high" then 2 else if level =? "medium" then 1 else 0.

(** On numbers the runtime's [>] is the order of the integers. *)
Definition numeric_gt (pf : Platform) : Prop :=
  forall z n, js_gt pf (JNum z) n = (n <? z)%Z.

(** ** String lemmas *)

Lemma startsWith_spec s k :
  startsWith s k = true <-> exists post, s = k ++ post.
Proof.
  revert s; induction k as [|a k IH]; intros s; simpl.
  - split; [intros _; now exists s | intros _; now destruct s].
  - destruct s as [|b s]; simpl.
    + split; [discriminate | intros [post H]; discriminate].
    + rewrite andb_true_iff, Ascii.eqb_eq, IH. split.
      * intros [-> [post ->]]. now exists post.
      * intros [post H]. injection H as -> ->. split; [reflexivity | now exists post].
Qed.

Lemma includes_spec s k : includes s k = true <-> Substring k s.
Proof.
  unfold Substring. induction s as [|c s IH].
  - cbn [includes]. rewrite orb_false_r, startsWith_spec. split.
    + intros [post H]. now exists "", post.
    + intros [pre [post H]]. destruct pre; simpl in H.
      * now exists post.
      * discriminate.
  - cbn [includes]. rewrite orb_true_iff, startsWith_spec, IH. split.
    + intros [[post H] | [pre [post H]]].
      * now exists "", post.
      * exists (String c pre), post. simpl. now rewrite H.
    + intros [pre [post H]]. destruct pre as [|c' pre]; simpl in H.
      * left. now exists post.
      * right. injection H as _ H. now exists pre, post.
Qed.

Lemma some_included_spec ks s :
  some_included ks s = true <-> exists k, In k ks /\ Substring k s.
Proof.
  unfold some_included. rewrite existsb_exists.
  split; intros [k [Hin H]]; exists k; split; auto; now apply includes_spec.
Qed.

Lemma lower_ascii_idem c : lower_ascii (lower_ascii c) = lower_ascii c.
Proof.
  destruct c as [[] [] [] [] [] [] [] []]; reflexivity.
Qed.

Lemma lower_upper_ascii c : lower_ascii (upper_ascii c) = lower_ascii c.
Proof.
  destruct c as [[] [] [] [] [] [] [] []]; reflexivity.
Qed.

Lemma toLowerCase_idem s : toLowerCase (toLowerCase s) = toLowerCase s.
Proof.
  induction s as [|c s IH]; simpl; [reflexivity|].
  now rewrite lower_ascii_idem, IH.
Qed.

Lemma toLowerCase_toUpperCase s : toLowerCase (toUpperCase s) = toLowerCase s.
Proof.
  induction s as [|c s IH]; simpl; [reflexivity|].
  now rewrite lower_upper_ascii, IH.
Qed.

Lemma SameUpToCase_lower s t : SameUpToCase s t -> toLowerCase s = toLowerCase t.
Proof.
  induction 1; simpl; try rewrite lower_ascii_idem; congruence.
Qed.

(** ** Monad and sink lemmas *)

Lemma log_nil st : log st [] = st.
Proof. destruct st; unfold log; cbn. now rewrite app_nil_r. Qed.

Lemma log_log st a b : log (log st a) b = log st (a ++ b)%list.
Proof. unfold log; cbn. now rewrite map_app, app_assoc. Qed.

Lemma trackGA4Event_run w env ev st :
  exists r, AnalyticsService.trackGA4Event w env ev st =
            (Normal r, log st (ga4Requests env ev)).
Proof.
  unfold AnalyticsService.trackGA4Event, ga4Requests.
  destruct (present (GA_MEASUREMENT_ID env)); cbn [negb].
  - unfold try_catch, bind, do_fetch, emit, log. cbn.
    destruct (net w _); cbn; eexists; reflexivity.
  - exists false. now rewrite log_nil.
Qed.

Lemma sendSMS_run w env b to st :
  exists r, NotificationService.sendSMS w env b to st =
            (Normal r, log st (smsRequests env b to)).
Proof.
  unfold NotificationService.sendSMS, smsRequests, smsConfigured.
  destruct (present (TWILIO_ACCOUNT_SID env)), (present (TWILIO_AUTH_TOKEN env)),
    (present (TWILIO_PHONE_NUMBER env)); cbn [negb orb andb];
    try (exists false; now rewrite log_nil).
  unfold try_catch, bind, do_fetch, emit, log. cbn.
  destruct (net w _); cbn; eexists; reflexivity.
Qed.

Lemma sendEmail_run w env subject b to st :
  exists r, NotificationService.sendEmail w env subject b to st =
            (Normal r, log st (emailRequests env subject b to)).
Proof.
  unfold NotificationService.sendEmail, emailRequests, emailConfigured.
  destruct (present (SENDGRID_API_KEY env)); cbn [negb].
  - unfold try_catch, bind, do_fetch, emit, log. cbn.
    destruct (net w _); cbn; eexists; reflexivity.
  - exists false. now rewrite log_nil.
Qed.

Lemma trackGoogleAdsConversion_run w env action v st :
  exists r, AnalyticsService.trackGoogleAdsConversion w env action v st =
            (Normal r, log st (adsRequests env action v)).
Proof.
  unfold AnalyticsService.trackGoogleAdsConversion, adsRequests.
  destruct (present (GOOGLE_ADS_CONVERSION_ID env)); cbn [negb].
  - unfold try_catch.
    destruct (trackGA4Event_run w env
      {| event_name := "conversion"; event_category := "google_ads";
         event_label := action; value := v; page_location := JUndefined;
         session_id := JUndefined;
         custom_parameters := [ ("conversion_action", JStr action); ("currency", JStr "USD") ] |} st) as [r ->].
    now exists r.
  - exists false. now rewrite log_nil.
Qed.

Lemma chatAnalytics_run w env m r pg sid st :
  exists fs,
    waitUntil (AnalyticsService.trackChatInteraction w env m r pg sid JUndefined) st
    = (Normal tt, log st fs).
Proof.
  unfold waitUntil, try_catch, AnalyticsService.trackChatInteraction, bind, lift.
  cbn [Js.truthy].
  destruct (Js.length_of r) as [len|e].
  - match goal with |- context [AnalyticsService.trackGA4Event w env ?ev st] =>
      destruct (trackGA4Event_run w env ev st) as [b ->]; eexists; reflexivity end.
  - exists []. now rewrite log_nil.
Qed.

(** ** ChatSession.fetch, case by case *)

Ltac run_monad :=
  cbv beta iota zeta delta
    [bind ret lift throw try_catch storage_get storage_put do_fetch
     response_json queue_send emit initial storage_history effects fst snd].

Lemma chat_unreadable w env oid req h :
  unreadable (net w (ChatSession.completionRequest env (historyOf h) req)) ->
  exists e,
    chat w env oid req h =
    (Throw e,
     {| storage_history := h;
        effects := [Fetched (ChatSession.completionRequest env (historyOf h) req)] |}).
Proof.
  unfold chat, ChatSession.fetch, unreadable. run_monad. fold (historyOf h).
  destruct (net w _) as [|s [j|]]; run_monad.
  - intros _. now exists NetworkError.
  - intros [e ->]. now exists e.
  - intros _. now exists SyntaxError.
Qed.

Lemma chat_readable w env oid req h s j r :
  net w (ChatSession.completionRequest env (historyOf h) req) = Responded s (Some j) ->
  ChatSession.replyOf j = Normal r ->
  let request := ChatSession.completionRequest env (historyOf h) req in
  let lead := ChatSession.detectHighValueLead (message req) r in
  let sent := if lead then [QueueSendJson (ChatSession.leadPayload w req r)] else [] in
  if lead && negb (queue_accepts w (ChatSession.leadPayload w req r))
  then chat w env oid req h =
       (Throw QueueError,
        {| storage_history := h; effects := Fetched request :: sent |})
  else exists fs,
       chat w env oid req h =
       (Normal {| reply := r; sessionId := oid; isHighValue := lead |},
        {| storage_history :=
             Some (historyOf h
                   ++ [ {| role := user; content := JStr (message req) |};
                        {| role := assistant; content := r |} ])%list;
           effects := (Fetched request :: sent ++ map Fetched fs)%list |}).
Proof.
  intros Hnet Hreply request lead sent. subst request lead sent.
  unfold chat, ChatSession.fetch. run_monad. fold (historyOf h).
  rewrite Hnet. run_monad. rewrite Hreply.
  destruct (ChatSession.detectHighValueLead (message req) r); cbn [andb].
  - destruct (queue_accepts w _); cbn [negb]; [|reflexivity].
    match goal with |- context [waitUntil _ ?st] =>
      destruct (chatAnalytics_run w env (message req) r
                  (str_or (page req) "unknown") oid st) as [fs ->] end.
    exists fs. reflexivity.
  - match goal with |- context [waitUntil _ ?st] =>
      destruct (chatAnalytics_run w env (message req) r
                  (str_or (page req) "unknown") oid st) as [fs ->] end.
    exists fs. reflexivity.
Qed.
Lemma filter_fetched (f : Effect -> bool) rs :
  (forall r, f (Fetched r) = false) -> filter f (map Fetched rs) = [].
Proof.
  intros Hf. induction rs as [|r rs IH]; cbn; [reflexivity|]. now rewrite Hf.
Qed.

Lemma enqueue_attempts_fetched es rs :
  enqueue_attempts (es ++ map Fetched rs) = enqueue_attempts es.
Proof.
  unfold enqueue_attempts. rewrite filter_app, filter_fetched by reflexivity.
  now rewrite app_nil_r.
Qed.

Lemma replyOf_completionBody r :
  ChatSession.replyOf (Sample.completionBody r) = Normal r.
Proof. reflexivity. Qed.

(** The queue send is attempted exactly when the qualifier accepts the user
    message, whatever the reply read from the completion response. *)
Lemma enqueue_attempts_chat w env oid req h s j r :
  net w (ChatSession.completionRequest env (historyOf h) req)
  = Responded s (Some j) ->
  ChatSession.replyOf j = Normal r ->
  enqueue_attempts (effects (snd (chat w env oid req h)))
  = if ChatSession.detectHighValueLead (message req) JUndefined then 1 else 0.
Proof.
  intros Hnet Hreply.
  pose proof (chat_readable w env oid req h s j r Hnet Hreply) as H.
  cbv zeta in H.
  change (ChatSession.detectHighValueLead (message req) r)
    with (ChatSession.detectHighValueLead (message req) JUndefined) in H.
  destruct (ChatSession.detectHighValueLead (message req) JUndefined);
    cbn [andb] in H.
  - destruct (queue_accepts w _); cbn [negb] in H.
    + destruct H as [fs ->]. cbn [snd effects].
      change (Fetched ?a :: [?b] ++ ?c)%list with ([Fetched a; b] ++ c)%list.
      now rewrite enqueue_attempts_fetched.
    + now rewrite H.
  - destruct H as [fs ->]. cbn [snd effects].
    change (Fetched ?a :: [] ++ ?c)%list with ([Fetched a] ++ c)%list.
    now rewrite enqueue_attempts_fetched.
Qed.

(** Reading the reply from typical bodies: an error body without [choices]
    and an empty [choices] array make the read throw; a message without
    [content] does not. *)
Example replyOf_error_body :
  ChatSession.replyOf
    (JObj [ ("error", JObj [ ("message", JStr "Rate limit reached") ]) ])
  = Throw TypeError.
Proof. reflexivity. Qed.

Example replyOf_no_choices :
  ChatSession.replyOf (JObj [ ("choices", JArr []) ]) = Throw TypeError.
Proof. reflexivity. Qed.

Example replyOf_no_content :
  ChatSession.replyOf
    (JObj [ ("choices",
             JArr [ JObj [ ("message", JObj [ ("role", JStr "assistant") ]) ] ]) ])
  = Normal JUndefined.
Proof. reflexivity. Qed.

(** ** Claims about the chat session *)

(** C1, as stated, fails: the handler never inspects the response status and
    does not check that [content] is present.  A 500 response whose body
    carries a reply, and a 200 response whose [content] is [null], both count
    as failed completion calls, and both make the handler append two turns. *)
Lemma C1_counterexample_unchecked_response :
  let w500 := Sample.world (Responded 500 (Some (Sample.completionBody (JStr "Sure!"))))
                Sample.ok200 Sample.ok200 Sample.ok200 true in
  let wNull := Sample.world (Responded 200 (Some (Sample.completionBody JNull)))
                 Sample.ok200 Sample.ok200 Sample.ok200 true in
  let request := ChatSession.completionRequest Sample.env Sample.earlier Sample.hello in
  (completionFailed (net w500 request) /\
   storage_history (snd (chat w500 Sample.env "session-1" Sample.hello (Some Sample.earlier)))
   <> Some Sample.earlier) /\
  (completionFailed (net wNull request) /\
   storage_history (snd (chat wNull Sample.env "session-1" Sample.hello (Some Sample.earlier)))
   = Some (Sample.earlier
           ++ [ {| role := user; content := JStr (message Sample.hello) |};
                {| role := assistant; content := JNull |} ])%list).
Proof.
  cbv zeta. split; split.
  - left. reflexivity.
  - vm_compute. discriminate.
  - right. intros r. vm_compute. discriminate.
  - vm_compute. reflexivity.
Qed.

(** C1 (amended): if the completion request rejects, or its body is not JSON,
    or reading [choices[0].message.content] from the parsed body throws, then
    the chat request fails, the persisted history is exactly what it was, and
    nothing has been sent to the queue. *)
Theorem C1_unreadable_completion_keeps_history w env oid req h :
  unreadable (net w (ChatSession.completionRequest env (historyOf h) req)) ->
  storage_history (snd (chat w env oid req h)) = h /\
  (exists e, fst (chat w env oid req h) = Throw e) /\
  enqueue_attempts (effects (snd (chat w env oid req h))) = 0.
Proof.
  intros H. destruct (chat_unreadable w env oid req h H) as [e ->].
  cbn. repeat split. now exists e.
Qed.

Lemma C1_witness_rejected_request :
  let w := Sample.world Rejected Sample.ok200 Sample.ok200 Sample.ok200 true in
  unreadable (net w (ChatSession.completionRequest Sample.env
                       (historyOf (Some Sample.earlier)) Sample.hello)) /\
  storage_history (snd (chat w Sample.env "session-1" Sample.hello (Some Sample.earlier)))
  = Some Sample.earlier.
Proof.
  cbv zeta. split; [exact I|].
  apply (C1_unreadable_completion_keeps_history
           (Sample.world Rejected Sample.ok200 Sample.ok200 Sample.ok200 true)
           Sample.env "session-1" Sample.hello (Some Sample.earlier)).
  exact I.
Defined.

(** C2, as stated, fails: the completion call succeeds with reply "Sure!" on
    a high-value message, the queue rejects the send, and the handler throws
    before it reaches [storage.put]; the two turns are not persisted. *)
Lemma C2_counterexample_queue_rejects :
  let w := Sample.world (Responded 200 (Some (Sample.completionBody (JStr "Sure!"))))
             Sample.ok200 Sample.ok200 Sample.ok200 false in
  completionSucceeded
    (net w (ChatSession.completionRequest Sample.env Sample.earlier Sample.commercial))
    "Sure!" /\
  storage_history
    (snd (chat w Sample.env "session-1" Sample.commercial (Some Sample.earlier)))
  <> Some (Sample.earlier
           ++ [ {| role := user; content := JStr (message Sample.commercial) |};
                {| role := assistant; content := JStr "Sure!" |} ])%list.
Proof.
  cbv zeta. split.
  - exists 200%Z, (Sample.completionBody (JStr "Sure!")). repeat split.
  - vm_compute. discriminate.
Qed.

(** C2 (amended): for every successful completion call with user message [m]
    and reply [r] in which the queue send, attempted when the message is
    high-value, does not fail, the history persisted after the call is the
    previous history followed by the user turn with content [m] and the
    assistant turn with content [r], and nothing else. *)
Theorem C2_success_appends_user_and_assistant_turn w env oid req h r :
  completionSucceeded
    (net w (ChatSession.completionRequest env (historyOf h) req)) r ->
  (ChatSession.detectHighValueLead (message req) (JStr r) = true ->
   queue_accepts w (ChatSession.leadPayload w req (JStr r)) = true) ->
  storage_history (snd (chat w env oid req h))
  = Some (historyOf h
          ++ [ {| role := user; content := JStr (message req) |};
               {| role := assistant; content := JStr r |} ])%list.
Proof.
  intros (s & j & Hnet & _ & Hreply) Hq.
  pose proof (chat_readable w env oid req h s j (JStr r) Hnet Hreply) as H.
  cbv zeta in H.
  destruct (ChatSession.detectHighValueLead (message req) (JStr r)); cbn [andb] in H.
  - rewrite Hq in H by reflexivity. cbn [negb] in H. now destruct H as [fs ->].
  - now destruct H as [fs ->].
Qed.

Lemma C2_witness_commercial_turn :
  let w := Sample.world (Responded 200 (Some (Sample.completionBody (JStr "Sure!"))))
             Sample.ok200 Sample.error500 Rejected true in
  storage_history
    (snd (chat w Sample.env "session-1" Sample.commercial (Some Sample.earlier)))
  = Some (Sample.earlier
          ++ [ {| role := user; content := JStr (message Sample.commercial) |};
               {| role := assistant; content := JStr "Sure!" |} ])%list.
Proof.
  cbv zeta.
  apply (C2_success_appends_user_and_assistant_turn
           (Sample.world (Responded 200 (Some (Sample.completionBody (JStr "Sure!"))))
              Sample.ok200 Sample.error500 Rejected true)
           Sample.env "session-1" Sample.commercial (Some Sample.earlier) "Sure!").
  - exists 200%Z, (Sample.completionBody (JStr "Sure!")). repeat split.
  - intros _. reflexivity.
Defined.

(** C3, as stated, fails: after a successful completion call on a high-value
    message, a rejected queue send is not caught; the chat request itself
    fails with the queue's error. *)
Lemma C3_counterexample_enqueue_failure_escapes :
  let w := Sample.world (Responded 200 (Some (Sample.completionBody (JStr "Sure!"))))
             Sample.ok200 Sample.ok200 Sample.ok200 false in
  completionSucceeded
    (net w (ChatSession.completionRequest Sample.env Sample.earlier Sample.commercial))
    "Sure!" /\
  fst (chat w Sample.env "session-1" Sample.commercial (Some Sample.earlier))
  = Throw QueueError.
Proof.
  cbv zeta. split.
  - exists 200%Z, (Sample.completionBody (JStr "Sure!")). repeat split.
  - vm_compute. reflexivity.
Qed.

(** C3 (amended): when the completion call has succeeded on a chat request
    whose message is a string, the chat request fails exactly when the
    message is high-value and the queue send of the [high_value_chat_lead]
    payload fails: that failure is not caught, it reaches the caller before
    the history is written.  In every other case the request answers with
    the reply, the session id and the high-value flag; a failure of the chat
    analytics call never fails it. *)
Theorem C3_chat_fails_only_on_enqueue_failure w env oid req h r :
  completionSucceeded
    (net w (ChatSession.completionRequest env (historyOf h) req)) r ->
  let lead := ChatSession.detectHighValueLead (message req) (JStr r) in
  let rejected :=
    lead && negb (queue_accepts w (ChatSession.leadPayload w req (JStr r))) in
  fst (chat w env oid req h)
  = (if rejected then Throw QueueError
     else Normal {| reply := JStr r; sessionId := oid; isHighValue := lead |}) /\
  (rejected = true -> storage_history (snd (chat w env oid req h)) = h).
Proof.
  intros (s & j & Hnet & _ & Hreply) lead rejected. subst lead rejected.
  pose proof (chat_readable w env oid req h s j (JStr r) Hnet Hreply) as H.
  cbv zeta in H.
  destruct (ChatSession.detectHighValueLead (message req) (JStr r) &&
            negb (queue_accepts w (ChatSession.leadPayload w req (JStr r)))).
  - rewrite H. now split.
  - destruct H as [fs ->]. split; [reflexivity | discriminate].
Qed.

Lemma C3_witness_failing_analytics :
  let w := Sample.world (Responded 200 (Some (Sample.completionBody (JStr "Sure!"))))
             Sample.ok200 Sample.ok200 Rejected true in
  fst (chat w Sample.env "session-1" Sample.commercial (Some Sample.earlier))
  = Normal {| reply := JStr "Sure!"; sessionId := "session-1"; isHighValue := true |}.
Proof.
  cbv zeta.
  refine (proj1 (C3_chat_fails_only_on_enqueue_failure
           (Sample.world (Responded 200 (Some (Sample.completionBody (JStr "Sure!"))))
              Sample.ok200 Sample.ok200 Rejected true)
           Sample.env "session-1" Sample.commercial (Some Sample.earlier) "Sure!" _)).
  exists 200%Z, (Sample.completionBody (JStr "Sure!")). repeat split.
Defined.

(** C10: the reply argument has no influence on the lead qualifier, and so
    none on whether the [high_value_chat_lead] payload is sent to the queue:
    two worlds that differ only in the reply of the completion endpoint make
    the same number of queue sends, one if the qualifier accepts the user
    message and none otherwise. *)
Theorem C10_reply_has_no_influence_on_lead_decision
    (m : string) (r1 r2 : JsValue) :
  ChatSession.detectHighValueLead m r1 = ChatSession.detectHighValueLead m r2 /\
  forall w env oid pg img h,
    let req := {| message := m; page := pg; imageUrl := img |} in
    enqueue_attempts (effects (snd (chat (answering w r1) env oid req h)))
    = enqueue_attempts (effects (snd (chat (answering w r2) env oid req h))) /\
    enqueue_attempts (effects (snd (chat (answering w r1) env oid req h)))
    = if ChatSession.detectHighValueLead m r1 then 1 else 0.
Proof.
  split; [reflexivity|]. intros w env oid pg img h req.
  rewrite (enqueue_attempts_chat (answering w r1) env oid req h 200
             (Sample.completionBody r1) r1) by reflexivity.
  rewrite (enqueue_attempts_chat (answering w r2) env oid req h 200
             (Sample.completionBody r2) r2) by reflexivity.
  split; reflexivity.
Qed.

(** ** Claims about the lead qualifier *)

Lemma detectHighValueLead_spec m r :
  ChatSession.detectHighValueLead m r = true <->
  exists k, In k ChatSession.highValueKeywords /\ Substring k (toLowerCase m).
Proof. apply some_included_spec. Qed.

Lemma detectHighValueLead_lowered m m' r r' :
  toLowerCase m = toLowerCase m' ->
  ChatSession.detectHighValueLead m r = ChatSession.detectHighValueLead m' r'.
Proof. unfold ChatSession.detectHighValueLead. now intros ->. Qed.

(** C5: the lead qualifier is a function of the user message alone, so equal
    inputs give equal results; it answers [true] exactly when some keyword of
    the fixed list occurs as a substring of the lower-cased message; messages
    that differ only in letter case get the same answer; "commercial" and
    "Commercial Building" are both accepted. *)
Theorem C5_lead_qualifier_case_insensitive_substring_match
    (m m' : string) (r r' : JsValue) :
  SameUpToCase m m' ->
  (ChatSession.detectHighValueLead m r = true <->
   exists k, In k ChatSession.highValueKeywords /\ Substring k (toLowerCase m)) /\
  ChatSession.detectHighValueLead m' r' = ChatSession.detectHighValueLead m r /\
  ChatSession.detectHighValueLead (toUpperCase m) r
  = ChatSession.detectHighValueLead m r /\
  ChatSession.detectHighValueLead "commercial" r = true /\
  ChatSession.detectHighValueLead "Commercial Building" r = true.
Proof.
  intros Hcase. split; [apply detectHighValueLead_spec|].
  split; [symmetry; apply detectHighValueLead_lowered, SameUpToCase_lower, Hcase|].
  split; [apply detectHighValueLead_lowered, toLowerCase_toUpperCase|].
  split; reflexivity.
Qed.

Lemma C5_witness_mixed_case :
  SameUpToCase "Commercial Building" "cOMMERCIAL building" /\
  ChatSession.detectHighValueLead "cOMMERCIAL building" JNull
  = ChatSession.detectHighValueLead "Commercial Building" (JStr "Sure!").
Proof.
  assert (H : SameUpToCase "Commercial Building" "cOMMERCIAL building").
  { repeat first
      [ apply suc_nil
      | apply suc_same
      | match goal with
        | |- SameUpToCase (String _ _) (String ?c _) =>
            apply (suc_up c); [reflexivity|]
        end
      | match goal with
        | |- SameUpToCase (String ?c _) _ =>
            apply (suc_down c); [reflexivity|]
        end ]. }
  split; [exact H|].
  exact (proj1 (proj2 (C5_lead_qualifier_case_insensitive_substring_match
                         "Commercial Building" "cOMMERCIAL building"
                         (JStr "Sure!") JNull H))).
Defined.

(** ** The consumer does not observe what the sinks answer *)

Ltac run_consumer :=
  cbv beta iota zeta delta
    [bind ret lift throw Js.get
     NotificationService.processNotification NotificationService.isHighPriority
     NotificationService.isCommercialLead
     NotificationService.handleEstimateNotification
     NotificationService.handleChatLeadNotification
     NotificationService.handleCallConversion
     Consumer.trackAnalytics
     AnalyticsService.trackFormSubmission AnalyticsService.trackBusinessEvent
     AnalyticsService.trackPhoneCall AnalyticsService.isCommercialLead
     AnalyticsService.calculateLeadValue].

(** Replace the next sink call applied to a known state by its effect. *)
Ltac sink_step :=
  match goal with
  | |- context [NotificationService.sendSMS ?w ?e ?b ?t ?st] =>
      destruct (sendSMS_run w e b t st) as [? ->]
  | |- context [NotificationService.sendEmail ?w ?e ?s ?b ?t ?st] =>
      destruct (sendEmail_run w e s b t st) as [? ->]
  | |- context [AnalyticsService.trackGA4Event ?w ?e ?ev ?st] =>
      destruct (trackGA4Event_run w e ev st) as [? ->]
  | |- context [AnalyticsService.trackGoogleAdsConversion ?w ?e ?a ?v ?st] =>
      destruct (trackGoogleAdsConversion_run w e a v st) as [? ->]
  end; cbv beta iota.

(** Split on the next payload test that decides the control flow. *)
Ltac payload_case :=
  match goal with
  | |- context [match Js.call_toLowerCase ?v with _ => _ end] =>
      destruct (Js.call_toLowerCase v) eqn:?
  | |- context [match Js.opt_substring ?v ?n with _ => _ end] =>
      destruct (Js.opt_substring v n) eqn:?
  | |- context [if ?b then _ else _] =>
      let H := fresh "Hcase" in
      destruct b eqn:H; try solve [cbv in H; discriminate H]
  end; cbv beta iota.

Ltac finish_run :=
  first
    [ solve [ eexists; exists []; intros w st; rewrite log_nil; reflexivity ]
    | solve [ do 2 eexists; intros w st; repeat sink_step;
              rewrite ?log_log; reflexivity ] ].

Lemma processNotification_run env payload :
  exists c rs, forall w st,
    NotificationService.processNotification w env payload st = (c, log st rs).
Proof.
  destruct payload; run_consumer; repeat payload_case; finish_run.
Qed.

Lemma trackAnalytics_run env payload :
  exists c rs, forall w st,
    Consumer.trackAnalytics w env payload st = (c, log st rs).
Proof.
  destruct payload; run_consumer; repeat payload_case; finish_run.
Qed.

Lemma handleMessage_run env m c1 rs1 c2 rs2 :
  (forall w st,
     NotificationService.processNotification w env (body m) st = (c1, log st rs1)) ->
  (forall w st, Consumer.trackAnalytics w env (body m) st = (c2, log st rs2)) ->
  forall w,
    deliver w env m =
    match c1, c2 with
    | Normal _, Normal _ =>
        (map Fetched (rs1 ++ rs2) ++ [settle Acknowledged (id m)])%list
    | Normal _, Throw _ =>
        (map Fetched (rs1 ++ rs2) ++ [settle Retryable (id m)])%list
    | Throw _, _ => (map Fetched rs1 ++ [settle Retryable (id m)])%list
    end.
Proof.
  intros H1 H2 w.
  unfold deliver, Consumer.handleMessage, try_catch, bind.
  rewrite H1. destruct c1 as [[]|e1].
  - rewrite H2, log_log. destruct c2 as [[]|e2]; reflexivity.
  - destruct c2; reflexivity.
Qed.

(** What one delivery does is fixed by the bindings and the message: the
    requests it sends and the way it settles the message are the same in
    every world. *)
Lemma deliver_run env m :
  exists rs o, forall w, deliver w env m = (map Fetched rs ++ [settle o (id m)])%list.
Proof.
  destruct (processNotification_run env (body m)) as (c1 & rs1 & H1).
  destruct (trackAnalytics_run env (body m)) as (c2 & rs2 & H2).
  pose proof (handleMessage_run env m c1 rs1 c2 rs2 H1 H2) as H.
  destruct c1, c2; eexists; eexists; intros w; rewrite H; reflexivity.
Qed.


Lemma outcomes_fetched rs tail :
  outcomes (map Fetched rs ++ tail)%list = outcomes tail.
Proof. induction rs as [|r rs IH]; cbn; auto. Qed.

Lemma outcomes_deliver env m :
  exists o, forall w, outcomes (deliver w env m) = [(id m, o)].
Proof.
  destruct (deliver_run env m) as (rs & o & H). exists o. intros w.
  rewrite H, outcomes_fetched. now destruct o.
Qed.

(** ** Well-typed payloads *)

Lemma lower_or_empty o :
  Js.call_toLowerCase (Js.or_else (Payload.opt o) (JStr "")) = Normal (Payload.text o).
Proof. destruct o as [[|c s]|]; reflexivity. Qed.

Lemma is_high_typed p :
  Js.is_str (Payload.opt (option_map Payload.lead_tag (Payload.leadValue p))) "high"
  = Payload.leadValue_high p.
Proof.
  unfold Payload.leadValue_high. now destruct (Payload.leadValue p) as [[]|].
Qed.

Lemma isCommercialLead_typed p st :
  NotificationService.isCommercialLead (Payload.toJs p) st
  = (Normal (Payload.commercial p), st).
Proof.
  unfold NotificationService.isCommercialLead, bind, lift, ret.
  change (Js.get (Payload.toJs p) "service") with (Normal (Payload.opt (Payload.service p))).
  change (Js.get (Payload.toJs p) "message") with (Normal (Payload.opt (Payload.message p))).
  cbv beta iota. now rewrite !lower_or_empty.
Qed.

Lemma analytics_isCommercialLead_typed p st :
  AnalyticsService.isCommercialLead (Payload.toJs p) st
  = (Normal (Payload.commercial p), st).
Proof. exact (isCommercialLead_typed p st). Qed.

Lemma isHighPriority_typed p st :
  NotificationService.isHighPriority (Payload.toJs p) st
  = (Normal (Payload.highPriority p), st).
Proof.
  unfold NotificationService.isHighPriority, bind, lift, ret, Payload.highPriority.
  change (Js.get (Payload.toJs p) "type")
    with (Normal (JStr (Payload.type_tag (Payload.type p)))).
  change (Js.get (Payload.toJs p) "leadValue")
    with (Normal (Payload.opt (option_map Payload.lead_tag (Payload.leadValue p)))).
  cbv beta iota. rewrite is_high_typed.
  destruct (Payload.type p); cbn [Payload.type_tag Js.is_str String.eqb Ascii.eqb Bool.eqb];
    try reflexivity;
    (destruct (Payload.leadValue_high p); [reflexivity | apply isCommercialLead_typed]).
Qed.

Lemma calculateLeadValue_typed p :
  exists v, forall st,
    AnalyticsService.calculateLeadValue (Payload.toJs p) st = (Normal v, st).
Proof.
  unfold AnalyticsService.calculateLeadValue, bind.
  eexists. intros st. rewrite analytics_isCommercialLead_typed.
  unfold lift, ret.
  change (Js.get (Payload.toJs p) "service") with (Normal (Payload.opt (Payload.service p))).
  change (Js.get (Payload.toJs p) "message") with (Normal (Payload.opt (Payload.message p))).
  cbv beta iota. rewrite !lower_or_empty. reflexivity.
Qed.

Lemma get_type_typed p :
  Js.get (Payload.toJs p) "type" = Normal (JStr (Payload.type_tag (Payload.type p))).
Proof. reflexivity. Qed.

Ltac typed_dispatch p Hty :=
  intros w st;
  rewrite isHighPriority_typed; unfold bind at 1, lift at 1;
  rewrite get_type_typed, Hty;
  cbn [Payload.type_tag Js.is_str String.eqb Ascii.eqb Bool.eqb];
  cbv beta iota.

Lemma processNotification_typed env p :
  exists sms subject html, forall w st,
    NotificationService.processNotification w env (Payload.toJs p) st
    = (Normal tt,
       log st ((if Payload.sendsSms p then smsRequests env sms None else [])
               ++ emailRequests env subject html None)%list).
Proof.
  unfold NotificationService.processNotification, bind at 1.
  unfold Payload.sendsSms.
  destruct (Payload.type p) eqn:Hty;
    [destruct (Payload.highPriority p) eqn:Hhigh | | ].
  - do 3 eexists. typed_dispatch p Hty. rewrite Hhigh.
    unfold Payload.toJs; run_consumer. repeat sink_step. rewrite ?log_log. reflexivity.
  - exists (SmsChatLead JUndefined). do 2 eexists. typed_dispatch p Hty.
    rewrite Hhigh. unfold Payload.toJs; run_consumer. repeat sink_step. reflexivity.
  - destruct (Payload.message p) as [text|] eqn:Hmsg;
      do 3 eexists; typed_dispatch p Hty;
      unfold NotificationService.handleChatLeadNotification;
      unfold bind at 1, lift at 1;
      change (Js.get (Payload.toJs p) "message")
        with (Normal (Payload.opt (Payload.message p)));
      rewrite Hmsg; cbn [Payload.opt Js.opt_substring];
      unfold Payload.toJs; run_consumer; repeat sink_step; rewrite ?log_log; reflexivity.
  - exists (SmsChatLead JUndefined). do 2 eexists. typed_dispatch p Hty.
    unfold Payload.toJs; run_consumer. repeat sink_step. reflexivity.
Qed.

Lemma ga4Requests_isGA4 env ev : forallb isGA4 (ga4Requests env ev) = true.
Proof. unfold ga4Requests. now destruct (present _). Qed.

Lemma adsRequests_isGA4 env a v : forallb isGA4 (adsRequests env a v) = true.
Proof.
  unfold adsRequests. destruct (present _); [apply ga4Requests_isGA4 | reflexivity].
Qed.

Lemma trackAnalytics_typed env p :
  exists ars,
    forallb isGA4 ars = true /\
    forall w st,
      Consumer.trackAnalytics w env (Payload.toJs p) st = (Normal tt, log st ars).
Proof.
  unfold Consumer.trackAnalytics.
  destruct (Payload.type p) eqn:Hty.
  - destruct (calculateLeadValue_typed p) as [v Hv].
    eexists. split; cycle 1.
    + intros w st. unfold bind at 1, lift at 1. rewrite get_type_typed, Hty.
      cbn [Payload.type_tag Js.is_str String.eqb Ascii.eqb Bool.eqb].
      cbv beta iota. unfold bind at 1, lift at 1.
      change (Js.get (Payload.toJs p) "page") with (Normal (Payload.opt (Payload.page p))).
      cbv beta iota. unfold AnalyticsService.trackFormSubmission.
      unfold bind at 1. rewrite analytics_isCommercialLead_typed.
      unfold bind at 1. rewrite Hv.
      unfold bind at 1, lift at 1.
      change (Js.get (Payload.toJs p) "service")
        with (Normal (Payload.opt (Payload.service p))).
      cbv beta iota. unfold bind, ret.
      repeat sink_step. rewrite ?log_log. reflexivity.
    + rewrite forallb_app, ga4Requests_isGA4, adsRequests_isGA4. reflexivity.
  - destruct (Payload.message p) as [text|] eqn:Hmsg;
      (eexists; split; cycle 1;
       [ intros w st; unfold bind at 1, lift at 1; rewrite get_type_typed, Hty;
         cbn [Payload.type_tag Js.is_str String.eqb Ascii.eqb Bool.eqb];
         cbv beta iota; unfold bind at 1, lift at 1;
         change (Js.get (Payload.toJs p) "page")
           with (Normal (Payload.opt (Payload.page p)));
         cbv beta iota; unfold bind at 1, lift at 1;
         change (Js.get (Payload.toJs p) "message")
           with (Normal (Payload.opt (Payload.message p)));
         rewrite Hmsg; cbn [Payload.opt Js.opt_substring];
         run_consumer; repeat sink_step; rewrite ?log_log; reflexivity
       | apply ga4Requests_isGA4 ]).
  - eexists. split; cycle 1.
    + intros w st. unfold bind at 1, lift at 1. rewrite get_type_typed, Hty.
      cbn [Payload.type_tag Js.is_str String.eqb Ascii.eqb Bool.eqb].
      cbv beta iota. unfold bind at 1, lift at 1.
      change (Js.get (Payload.toJs p) "page") with (Normal (Payload.opt (Payload.page p))).
      run_consumer. repeat sink_step. rewrite ?log_log. reflexivity.
    + rewrite forallb_app, ga4Requests_isGA4, adsRequests_isGA4. reflexivity.
Qed.

(** ** Counting attempts in a delivery *)

Lemma filter_ga4 (f : Effect -> bool) ars :
  (forall a b c, f (Fetched (GA4Request a b c)) = false) ->
  forallb isGA4 ars = true ->
  filter f (map Fetched ars) = [].
Proof.
  intros Hf. induction ars as [|r ars IH]; cbn; [reflexivity|].
  rewrite andb_true_iff. intros [Hr Hars].
  destruct r; try discriminate. rewrite Hf. auto.
Qed.

Lemma sms_attempts_smsRequests env b to :
  sms_attempts (map Fetched (smsRequests env b to))
  = if smsConfigured env then 1 else 0.
Proof. unfold smsRequests. now destruct (smsConfigured env). Qed.

Lemma email_attempts_emailRequests env s b to :
  email_attempts (map Fetched (emailRequests env s b to))
  = if emailConfigured env then 1 else 0.
Proof. unfold emailRequests. now destruct (emailConfigured env). Qed.

Lemma sms_attempts_emailRequests env s b to :
  sms_attempts (map Fetched (emailRequests env s b to)) = 0.
Proof. unfold emailRequests. now destruct (emailConfigured env). Qed.

Lemma email_attempts_smsRequests env b to :
  email_attempts (map Fetched (smsRequests env b to)) = 0.
Proof. unfold smsRequests. now destruct (smsConfigured env). Qed.

Lemma sms_attempts_app a b : sms_attempts (a ++ b) = sms_attempts a + sms_attempts b.
Proof. unfold sms_attempts. now rewrite filter_app, length_app. Qed.

Lemma email_attempts_app a b :
  email_attempts (a ++ b) = email_attempts a + email_attempts b.
Proof. unfold email_attempts. now rewrite filter_app, length_app. Qed.

Lemma sms_attempts_ga4 ars :
  forallb isGA4 ars = true -> sms_attempts (map Fetched ars) = 0.
Proof. intros H. unfold sms_attempts. now rewrite filter_ga4. Qed.

Lemma email_attempts_ga4 ars :
  forallb isGA4 ars = true -> email_attempts (map Fetched ars) = 0.
Proof. intros H. unfold email_attempts. now rewrite filter_ga4. Qed.

(** A well-typed payload is always processed to the end: the SMS request is
    sent if its handler calls [sendSMS] and Twilio is configured, the email
    request if SendGrid is configured, and the message is acknowledged. *)
Lemma deliver_typed w env mid ts p :
  let es := deliver w env {| id := mid; timestamp := ts; body := Payload.toJs p |} in
  sms_attempts es = (if Payload.sendsSms p && smsConfigured env then 1 else 0) /\
  email_attempts es = (if emailConfigured env then 1 else 0) /\
  outcomes es = [(mid, Acknowledged)].
Proof.
  destruct (processNotification_typed env p) as (sms & subject & html & H1).
  destruct (trackAnalytics_typed env p) as (ars & Hga & H2).
  cbv zeta.
  rewrite (handleMessage_run env
             {| id := mid; timestamp := ts; body := Payload.toJs p |}
             _ _ _ _ H1 H2 w).
  rewrite outcomes_fetched. cbn [settle id outcomes].
  rewrite !map_app, !sms_attempts_app, !email_attempts_app.
  rewrite sms_attempts_emailRequests, email_attempts_emailRequests.
  rewrite (sms_attempts_ga4 ars Hga), (email_attempts_ga4 ars Hga).
  change (sms_attempts [Acked mid]) with 0.
  change (email_attempts [Acked mid]) with 0.
  destruct (Payload.sendsSms p); cbn [andb map].
  - rewrite sms_attempts_smsRequests, email_attempts_smsRequests.
    destruct (smsConfigured env), (emailConfigured env); repeat split.
  - destruct (emailConfigured env); repeat split.
Qed.


(** ** Batches *)

Lemma handleMessage_frame w env m st :
  Consumer.handleMessage w env m st
  = (Normal tt,
     {| storage_history := storage_history st;
        effects := (effects st ++ deliver w env m)%list |}).
Proof.
  destruct (processNotification_run env (body m)) as (c1 & rs1 & H1).
  destruct (trackAnalytics_run env (body m)) as (c2 & rs2 & H2).
  rewrite (handleMessage_run env m c1 rs1 c2 rs2 H1 H2 w).
  unfold Consumer.handleMessage, try_catch, bind.
  rewrite H1. destruct c1 as [[]|e1].
  - rewrite H2, log_log.
    destruct c2 as [[]|e2]; cbv [Consumer.ack Consumer.retry emit log settle];
      cbn [storage_history effects]; now rewrite <- app_assoc.
  - destruct c2; cbv [Consumer.ack Consumer.retry emit log settle];
      cbn [storage_history effects]; now rewrite <- app_assoc.
Qed.

(** A batch is processed message by message: the consumer never stops early,
    and what it does for one message does not depend on the others. *)
Lemma queue_effects w env ms :
  effects (snd (Consumer.queue w env ms (initial None)))
  = flat_map (deliver w env) ms.
Proof.
  unfold Consumer.queue.
  enough (H : forall st,
             for_of ms (Consumer.handleMessage w env) st
             = (Normal tt,
                {| storage_history := storage_history st;
                   effects := (effects st ++ flat_map (deliver w env) ms)%list |})).
  { now rewrite H. }
  induction ms as [|m ms IH]; intros st; cbn [for_of flat_map].
  - unfold ret. rewrite app_nil_r. now destruct st.
  - unfold bind. rewrite handleMessage_frame, IH. cbn [storage_history effects].
    now rewrite app_assoc.
Qed.

(** ** Claims about the queue consumer *)

(** A body without a recognised [type] reaches no handler: the delivery
    consists of the single [ack] or [retry] call, and it is a [retry] exactly
    when computing the priority flag throws. *)
Lemma deliver_unrecognised w env m :
  recognised (body m) = false ->
  match fst (NotificationService.isHighPriority (body m) (initial None)) with
  | Normal _ => deliver w env m = [Acked (id m)]
  | Throw _ => deliver w env m = [Retried (id m)]
  end.
Proof.
  unfold recognised, deliver, Consumer.handleMessage, Consumer.ack, Consumer.retry.
  destruct (body m) as [| |b|z|s|items|fields]; intros Hrec;
    try reflexivity.
  cbn [Js.get] in Hrec. rewrite !orb_false_iff in Hrec.
  destruct Hrec as [[He Hc] Hv].
  unfold try_catch. run_consumer. rewrite He, Hc, Hv.
  cbv beta iota delta [fst].
  repeat (payload_case; cbv beta iota delta [fst] in *; rewrite ?He, ?Hc, ?Hv;
          try discriminate);
    reflexivity.
Qed.

(** C4, as stated, fails: a body that lacks the [type] field is not rejected.
    No branch of the dispatcher or of the analytics step matches it, nothing
    throws, and the message is acknowledged, not retried. *)
Lemma C4_counterexample_missing_type_acknowledged :
  let body := JObj [ ("name", JStr "John Doe");
                     ("service", JStr "Interior Painting");
                     ("message", JStr "just curious");
                     ("timestamp", JNum 1700000000000) ] in
  let w := Sample.world Sample.ok200 Sample.ok200 Sample.ok200 Sample.ok200 true in
  Js.get body "type" = Normal JUndefined /\
  recognised body = false /\
  deliver w Sample.env (Sample.delivered body) = [Acked "msg-1"] /\
  outcomes (deliver w Sample.env (Sample.delivered body)) <> [("msg-1", Retryable)].
Proof.
  cbv zeta. repeat split. vm_compute. discriminate.
Qed.

(** C4 (amended): for every queue message whose body carries none of the
    three payload tags in [type] (the field is missing or unknown, or the
    body is not an object), the consumer calls no SMS sink, no email sink and
    no analytics sink.  It marks the message for retry only if reading the
    body throws while the priority flag is computed (the body is [null] or
    [undefined], or [leadValue] is not 'high' and a [service] or [message]
    field is a truthy non-string); otherwise, as for an object that merely
    lacks [type], it acknowledges the message. *)
Theorem C4_unrecognised_body_reaches_no_sink w env m :
  recognised (body m) = false ->
  let es := deliver w env m in
  sms_attempts es = 0 /\ email_attempts es = 0 /\ analytics_attempts es = 0 /\
  outcomes es =
  [(id m,
    match fst (NotificationService.isHighPriority (body m) (initial None)) with
    | Normal _ => Acknowledged
    | Throw _ => Retryable
    end)].
Proof.
  intros Hrec. pose proof (deliver_unrecognised w env m Hrec) as H. cbv zeta.
  destruct (fst (NotificationService.isHighPriority (body m) (initial None)));
    rewrite H; repeat split.
Qed.

Lemma C4_witness_null_body :
  let w := Sample.world Sample.ok200 Sample.ok200 Sample.ok200 Sample.ok200 true in
  recognised JNull = false /\
  sms_attempts (deliver w Sample.env (Sample.delivered JNull)) = 0 /\
  email_attempts (deliver w Sample.env (Sample.delivered JNull)) = 0 /\
  analytics_attempts (deliver w Sample.env (Sample.delivered JNull)) = 0 /\
  outcomes (deliver w Sample.env (Sample.delivered JNull)) = [("msg-1", Retryable)].
Proof.
  cbv zeta. split; [reflexivity|].
  apply (C4_unrecognised_body_reaches_no_sink
           (Sample.world Sample.ok200 Sample.ok200 Sample.ok200 Sample.ok200 true)
           Sample.env (Sample.delivered JNull)).
  reflexivity.
Defined.

(** C6, as stated, fails: an [estimate_request] whose [leadValue] field is
    'high' is classified high priority although the commercial heuristic
    matches neither its service nor its message; and the flag of a
    [call_conversion] payload with that field is computed as high as well. *)
Lemma C6_counterexample_leadValue_high :
  let p := Sample.estimate "Interior Painting" "just curious" (Some Payload.high) in
  let q := {| Payload.type := Payload.call_conversion;
              Payload.name := None; Payload.email := None; Payload.phone := None;
              Payload.service := None; Payload.message := None;
              Payload.reply := None;
              Payload.page := Some "https://dependablepainting.work/";
              Payload.timestamp := 1700000000000;
              Payload.leadValue := Some Payload.high |} in
  (fst (NotificationService.isHighPriority (Payload.toJs p) (initial None))
   = Normal true /\
   fst (NotificationService.isCommercialLead (Payload.toJs p) (initial None))
   = Normal false) /\
  fst (NotificationService.isHighPriority (Payload.toJs q) (initial None))
  = Normal true.
Proof. cbv zeta. repeat split. Qed.

(** C6 (amended): every [high_value_chat_lead] payload is classified high
    priority; an [estimate_request] payload is classified high priority if
    and only if its [leadValue] field is 'high' or the commercial keyword
    heuristic matches its service or message; a [call_conversion] payload
    gets its flag by the same rule, but the flag is not used for it: it never
    leads to an SMS dispatch.  The heuristic is the value of
    [isCommercialLead]: some commercial keyword occurs in the lower-cased
    service or message. *)
Theorem C6_priority_classification (p : Payload.t) (st : State) :
  let flag := fst (NotificationService.isHighPriority (Payload.toJs p) st) in
  fst (NotificationService.isCommercialLead (Payload.toJs p) st)
  = Normal (Payload.commercial p) /\
  match Payload.type p with
  | Payload.high_value_chat_lead => flag = Normal true
  | Payload.estimate_request =>
      flag = Normal (Payload.leadValue_high p || Payload.commercial p)
  | Payload.call_conversion =>
      flag = Normal (Payload.leadValue_high p || Payload.commercial p) /\
      forall w env mid ts,
        sms_attempts
          (deliver w env {| id := mid; timestamp := ts; body := Payload.toJs p |})
        = 0
  end.
Proof.
  cbv zeta. rewrite isCommercialLead_typed, isHighPriority_typed.
  split; [reflexivity|]. unfold Payload.highPriority.
  destruct (Payload.type p) eqn:Hty; try reflexivity.
  split; [reflexivity|]. intros w env mid ts.
  destruct (deliver_typed w env mid ts p) as (Hsms & _ & _).
  rewrite Hsms. unfold Payload.sendsSms. now rewrite Hty.
Qed.




(** * Further properties of the modelled code *)

(** ** The queue consumer over a batch *)

(** X1: [queue] settles every message of a batch exactly once and in batch
    order, never throws, and gives each message the outcome it would get if
    it were delivered alone: a message that is retried does not stop or
    change the processing of the others. *)
Theorem queue_settles_each_message_once w env (ms : list Message) :
  let run := Consumer.queue w env ms (initial None) in
  fst run = Normal tt /\
  map fst (outcomes (effects (snd run))) = map id ms /\
  outcomes (effects (snd run))
  = flat_map (fun m => outcomes (deliver w env m)) ms.
Proof.
  cbv zeta. rewrite queue_effects. split; [|split].
  - unfold Consumer.queue. generalize (initial None).
    induction ms as [|m ms IH]; intros st; [reflexivity|].
    cbn [for_of]. unfold bind. rewrite handleMessage_frame. apply IH.
  - induction ms as [|m ms IH]; [reflexivity|]. cbn [flat_map map].
    destruct (deliver_run env m) as (rs & o & H). rewrite (H w).
    rewrite <- app_assoc, outcomes_fetched. cbn [app].
    destruct o; cbn [settle outcomes map fst]; now rewrite IH.
  - induction ms as [|m ms IH]; [reflexivity|]. cbn [flat_map].
    destruct (deliver_run env m) as (rs & o & H). rewrite (H w).
    rewrite <- app_assoc, !outcomes_fetched. cbn [app].
    destruct o; cbn [settle outcomes app]; now rewrite IH.
Qed.

(** ** The notification step is all or nothing *)

Lemma notifier_sendSMS_run w env b to st :
  Notifier.sendSMS w env b to st
  = if smsConfigured env && negb (smsEncodable env)
    then (Throw InvalidCharacterError, st)
    else (Normal (existsb (answered_ok w) (smsRequests env b to)),
          log st (smsRequests env b to)).
Proof.
  unfold Notifier.sendSMS, smsRequests, smsConfigured, smsEncodable,
    Conversions.btoa, answered_ok.
  destruct (present (TWILIO_ACCOUNT_SID env)), (present (TWILIO_AUTH_TOKEN env)),
    (present (TWILIO_PHONE_NUMBER env)); cbn [negb orb andb existsb];
    try (unfold ret; now rewrite log_nil).
  unfold bind, lift.
  destruct (Conversions.latin1 _); cbn [negb]; [|reflexivity].
  unfold try_catch, bind, do_fetch, emit, log. cbn.
  destruct (net w _); cbn; now rewrite ?orb_false_r.
Qed.

Ltac run_notifier :=
  cbv beta iota zeta delta
    [bind ret lift throw Js.get
     Notifier.processNotification NotificationService.isHighPriority
     NotificationService.isCommercialLead
     Notifier.handleEstimateNotification
     Notifier.handleChatLeadNotification
     Notifier.handleCallConversion Notifier.field
     Conversions.interpolate Conversions.localeDate].

Ltac notifier_step :=
  match goal with
  | |- context [Notifier.sendSMS ?w ?e ?b ?t ?st] =>
      rewrite (notifier_sendSMS_run w e b t st);
      destruct (smsConfigured e && negb (smsEncodable e))
  | |- context [NotificationService.sendEmail ?w ?e ?s ?b ?t ?st] =>
      destruct (sendEmail_run w e s b t st) as [? ->]
  end; cbv beta iota.

(** X2: when [processNotification] throws, it has sent nothing.  An
    exception can arise while the payload is read, while a template converts
    one of its fields to a string (or [new Date] its timestamp to a
    primitive), and in the [btoa] call of [sendSMS]; each of these comes
    before the first request of the notification, and nothing can throw once
    a request has been made. *)
Theorem processNotification_throws_before_sending w env payload st e :
  fst (Notifier.processNotification w env payload st) = Throw e ->
  snd (Notifier.processNotification w env payload st) = st.
Proof.
  destruct payload; run_notifier;
    repeat (payload_case; cbv beta iota delta [fst snd]);
    repeat (notifier_step; cbv beta iota delta [fst snd]);
    cbv beta iota delta [fst snd]; intros H; try discriminate H; reflexivity.
Qed.

Lemma processNotification_throws_witness :
  let w := Sample.world Sample.ok200 Sample.ok200 Sample.ok200 Sample.ok200 true in
  let payload := JObj [ ("type", JStr "high_value_chat_lead");
                        ("message", JStr "I need a quote");
                        ("reply", JObj [ ("toString", JNum 1) ]) ] in
  fst (Notifier.processNotification w Sample.env payload (initial None))
  = Throw TypeError /\
  snd (Notifier.processNotification w Sample.env payload (initial None))
  = initial None.
Proof.
  cbv zeta. split; [reflexivity|].
  apply (processNotification_throws_before_sending
           (Sample.world Sample.ok200 Sample.ok200 Sample.ok200 Sample.ok200 true)
           Sample.env
           (JObj [ ("type", JStr "high_value_chat_lead");
                   ("message", JStr "I need a quote");
                   ("reply", JObj [ ("toString", JNum 1) ]) ])
           (initial None) TypeError).
  reflexivity.
Defined.

(** ** What the sinks return *)

(** X3: [sendEmail] never throws.  [sendSMS] throws in one case only: the
    three Twilio bindings are set and the text SID:TOKEN holds a code point
    above U+00FF, which [btoa], called before the [try] block, rejects; it
    has then sent nothing.  Otherwise each of the two sends one request when
    its provider is configured and none when it is not, and the boolean it
    returns is [true] exactly when the request was sent and answered with a
    2xx status. *)
Theorem channel_result w env sms subject html to st :
  Notifier.sendSMS w env sms to st
  = (if smsConfigured env && negb (smsEncodable env)
     then (Throw InvalidCharacterError, st)
     else (Normal (existsb (answered_ok w) (smsRequests env sms to)),
           log st (smsRequests env sms to))) /\
  NotificationService.sendEmail w env subject html to st
  = (Normal (existsb (answered_ok w) (emailRequests env subject html to)),
     log st (emailRequests env subject html to)) /\
  List.length (smsRequests env sms to) = (if smsConfigured env then 1 else 0) /\
  List.length (emailRequests env subject html to)
  = (if emailConfigured env then 1 else 0).
Proof.
  repeat split.
  - apply notifier_sendSMS_run.
  - unfold NotificationService.sendEmail, emailRequests, emailConfigured, answered_ok.
    destruct (present (SENDGRID_API_KEY env)); cbn [negb existsb];
      try (unfold ret; now rewrite log_nil).
    unfold try_catch, bind, do_fetch, emit, log. cbn.
    destruct (net w _); cbn; now rewrite ?orb_false_r.
  - unfold smsRequests. now destruct (smsConfigured env).
  - unfold emailRequests. now destruct (emailConfigured env).
Qed.


(** ** Payloads of the declared type *)

Lemma typed_get p k :
  exists v, Js.get (Payload.toJs p) k = Normal v /\ Conversions.converts v = true.
Proof.
  unfold Payload.toJs. cbn [Js.get Js.lookup].
  eexists. split; [reflexivity|].
  repeat match goal with
         | |- context [if k =? ?lit then _ else _] => destruct (k =? lit)
         end;
    try reflexivity;
    match goal with
    | |- context [Payload.opt ?o] => now destruct o
    end.
Qed.

Lemma sendSMS_result w env b to st :
  NotificationService.sendSMS w env b to st
  = (Normal (existsb (answered_ok w) (smsRequests env b to)),
     log st (smsRequests env b to)).
Proof.
  unfold NotificationService.sendSMS, smsRequests, smsConfigured, answered_ok.
  destruct (present (TWILIO_ACCOUNT_SID env)), (present (TWILIO_AUTH_TOKEN env)),
    (present (TWILIO_PHONE_NUMBER env)); cbn [negb orb andb existsb];
    try (unfold ret; now rewrite log_nil).
  unfold try_catch, bind, do_fetch, emit, log. cbn.
  destruct (net w _); cbn; now rewrite ?orb_false_r.
Qed.

Ltac typed_field p k :=
  let v := fresh "v" in
  let Hg := fresh "Hg" in
  let Hc := fresh "Hc" in
  destruct (typed_get p k) as (v & Hg & Hc);
  rewrite ?Hg; cbv beta iota; rewrite ?Hc; cbv beta iota.

Ltac run_both :=
  cbv beta iota zeta delta
    [bind ret lift
     Notifier.processNotification NotificationService.processNotification
     Notifier.handleEstimateNotification
     Notifier.handleChatLeadNotification
     Notifier.handleCallConversion Notifier.field
     NotificationService.handleEstimateNotification
     NotificationService.handleChatLeadNotification
     NotificationService.handleCallConversion
     Conversions.interpolate Conversions.localeDate].

(** On a payload of the declared type the conversions succeed, and the two
    renderings of [processNotification] differ in the [btoa] call alone. *)
Lemma processNotification_conversions w env (p : Payload.t) st :
  Notifier.processNotification w env (Payload.toJs p) st
  = if Payload.sendsSms p && smsConfigured env && negb (smsEncodable env)
    then (Throw InvalidCharacterError, st)
    else NotificationService.processNotification w env (Payload.toJs p) st.
Proof.
  run_both. rewrite !isHighPriority_typed. cbv beta iota.
  rewrite !get_type_typed. cbv beta iota.
  unfold Payload.sendsSms.
  destruct (Payload.type p) eqn:Hty;
    cbn [Payload.type_tag Js.is_str String.eqb Ascii.eqb Bool.eqb];
    cbv beta iota.
  - typed_field p "name". typed_field p "phone". typed_field p "service".
    typed_field p "email". typed_field p "message". typed_field p "timestamp".
    destruct (Payload.highPriority p); cbn [andb]; cbv beta iota.
    + rewrite notifier_sendSMS_run, sendSMS_result.
      destruct (smsConfigured env && negb (smsEncodable env)); reflexivity.
    + reflexivity.
  - change (Js.get (Payload.toJs p) "message")
      with (Normal (Payload.opt (Payload.message p))).
    cbv beta iota.
    typed_field p "page". typed_field p "reply". typed_field p "timestamp".
    cbn [andb].
    destruct (Payload.message p) as [text|];
      cbn [Payload.opt Js.opt_substring Conversions.converts]; cbv beta iota;
      rewrite notifier_sendSMS_run, sendSMS_result;
      destruct (smsConfigured env && negb (smsEncodable env)); reflexivity.
  - typed_field p "page". typed_field p "timestamp". reflexivity.
Qed.

(** X15: on a payload of the declared type [NotificationPayload] no template
    conversion throws, and [processNotification] throws in one case only:
    the notification is due an SMS (a chat lead, or an estimate request of
    high priority), the three Twilio bindings are set, and the text
    SID:TOKEN holds a code point above U+00FF.  The exception then comes
    from [btoa], before any request: the email is not sent either.  In every
    other case the notification runs to its end, having attempted the SMS
    when one is due and then the email. *)
Theorem typed_notification_throws_only_in_btoa env (p : Payload.t) :
  exists sms subject html, forall w st,
    Notifier.processNotification w env (Payload.toJs p) st
    = if Payload.sendsSms p && smsConfigured env && negb (smsEncodable env)
      then (Throw InvalidCharacterError, st)
      else (Normal tt,
            log st ((if Payload.sendsSms p then smsRequests env sms None else [])
                    ++ emailRequests env subject html None)%list).
Proof.
  destruct (processNotification_typed env p) as (sms & subject & html & H).
  exists sms, subject, html. intros w st.
  rewrite processNotification_conversions, H. reflexivity.
Qed.

Lemma notifier_deliver_same w env m :
  Notifier.processNotification w env (body m) (initial None)
  = NotificationService.processNotification w env (body m) (initial None) ->
  Notifier.deliver w env m = deliver w env m.
Proof.
  intros H.
  unfold Notifier.deliver, Notifier.handleMessage, deliver, Consumer.handleMessage,
    try_catch, bind.
  rewrite H. reflexivity.
Qed.

Lemma notifier_deliver_throw w env m e :
  Notifier.processNotification w env (body m) (initial None)
  = (Throw e, initial None) ->
  Notifier.deliver w env m = [Retried (id m)].
Proof.
  intros H.
  unfold Notifier.deliver, Notifier.handleMessage, try_catch, bind.
  rewrite H. reflexivity.
Qed.

(** X16: a message whose body is of the declared type is settled exactly
    once.  It is retried, with no request made at all, when it is due an SMS
    and the Twilio bindings are set to credentials that [btoa] rejects.  In
    every other case the conversions change nothing: the delivery has the
    effects it has without them, and the message is acknowledged after one
    SMS attempt when an SMS is due and Twilio is configured, and one email
    attempt when SendGrid is configured. *)
Theorem typed_delivery_with_conversions w env mid ts (p : Payload.t) :
  let m := {| id := mid; timestamp := ts; body := Payload.toJs p |} in
  if Payload.sendsSms p && smsConfigured env && negb (smsEncodable env)
  then Notifier.deliver w env m = [Retried mid]
  else Notifier.deliver w env m = deliver w env m /\
       sms_attempts (Notifier.deliver w env m)
       = (if Payload.sendsSms p && smsConfigured env then 1 else 0) /\
       email_attempts (Notifier.deliver w env m)
       = (if emailConfigured env then 1 else 0) /\
       outcomes (Notifier.deliver w env m) = [(mid, Acknowledged)].
Proof.
  cbv zeta.
  pose proof (processNotification_conversions w env p (initial None)) as H.
  destruct (Payload.sendsSms p && smsConfigured env && negb (smsEncodable env)).
  - exact (notifier_deliver_throw w env
             {| id := mid; timestamp := ts; body := Payload.toJs p |} _ H).
  - rewrite (notifier_deliver_same w env
               {| id := mid; timestamp := ts; body := Payload.toJs p |} H).
    split; [reflexivity|]. apply (deliver_typed w env mid ts p).
Qed.

(** X4: [trackGA4Event] and [trackGoogleAdsConversion] never throw.  An
    event is sent only when [GA_MEASUREMENT_ID] is set, a conversion only
    when [GOOGLE_ADS_CONVERSION_ID] is set as well (it travels as a GA4
    event); the boolean returned is [true] exactly when the request was sent
    and answered with a 2xx status. *)
Theorem analytics_result w env event action amount st :
  AnalyticsService.trackGA4Event w env event st
  = (Normal (existsb (answered_ok w) (ga4Requests env event)),
     log st (ga4Requests env event)) /\
  AnalyticsService.trackGoogleAdsConversion w env action amount st
  = (Normal (existsb (answered_ok w) (adsRequests env action amount)),
     log st (adsRequests env action amount)) /\
  List.length (ga4Requests env event)
  = (if present (GA_MEASUREMENT_ID env) then 1 else 0) /\
  List.length (adsRequests env action amount)
  = (if present (GOOGLE_ADS_CONVERSION_ID env) && present (GA_MEASUREMENT_ID env)
     then 1 else 0).
Proof.
  assert (Hga : forall ev st0,
             AnalyticsService.trackGA4Event w env ev st0
             = (Normal (existsb (answered_ok w) (ga4Requests env ev)),
                log st0 (ga4Requests env ev))).
  { intros ev st0.
    unfold AnalyticsService.trackGA4Event, ga4Requests, answered_ok.
    destruct (present (GA_MEASUREMENT_ID env)); cbn [negb existsb];
      try (unfold ret; now rewrite log_nil).
    unfold try_catch, bind, do_fetch, emit, log. cbn.
    destruct (net w _); cbn; now rewrite ?orb_false_r. }
  repeat split.
  - apply Hga.
  - unfold AnalyticsService.trackGoogleAdsConversion, adsRequests.
    destruct (present (GOOGLE_ADS_CONVERSION_ID env)); cbn [negb existsb].
    + unfold try_catch. now rewrite Hga.
    + unfold ret. now rewrite log_nil.
  - unfold ga4Requests. now destruct (present (GA_MEASUREMENT_ID env)).
  - unfold adsRequests, ga4Requests.
    now destruct (present (GOOGLE_ADS_CONVERSION_ID env)),
      (present (GA_MEASUREMENT_ID env)).
Qed.

(** ** Lead value *)

(** X5: on a well-typed form the lead value is computed without an
    exception and lies between 25 and 175.  A lead that the commercial
    heuristic accepts is worth at least 100, any other lead at most 100, so
    only commercial leads can be reported with quality 'high' (a value above
    100). *)
Theorem calculateLeadValue_bounds (p : Payload.t) (st : State) :
  exists v,
    AnalyticsService.calculateLeadValue (Payload.toJs p) st = (Normal v, st) /\
    (if Payload.commercial p then 100 <= v <= 175 else 25 <= v <= 100)%Z.
Proof.
  unfold AnalyticsService.calculateLeadValue, bind.
  rewrite analytics_isCommercialLead_typed. unfold lift, ret.
  change (Js.get (Payload.toJs p) "service") with (Normal (Payload.opt (Payload.service p))).
  change (Js.get (Payload.toJs p) "message") with (Normal (Payload.opt (Payload.message p))).
  cbv beta iota. rewrite !lower_or_empty. eexists. split; [reflexivity|].
  destruct (Payload.commercial p);
    repeat match goal with
           | |- context [if ?b then _ else _] => destruct b
           end; lia.
Qed.

(** ** Where notifications go *)

Lemma smsRequests_toOwner env sms :
  forallb (toOwner env) (smsRequests env sms None) = true.
Proof.
  unfold smsRequests. destruct (smsConfigured env); cbn; [|reflexivity].
  now rewrite String.eqb_refl.
Qed.

Lemma emailRequests_toOwner env subject html :
  forallb (toOwner env) (emailRequests env subject html None) = true.
Proof.
  unfold emailRequests. destruct (emailConfigured env); cbn; [|reflexivity].
  now rewrite !String.eqb_refl.
Qed.

Lemma ga4Requests_toOwner env ev : forallb (toOwner env) (ga4Requests env ev) = true.
Proof. unfold ga4Requests. now destruct (present _). Qed.

Lemma adsRequests_toOwner env a v : forallb (toOwner env) (adsRequests env a v) = true.
Proof.
  unfold adsRequests. destruct (present _); [apply ga4Requests_toOwner | reflexivity].
Qed.

Ltac owner_requests :=
  rewrite ?forallb_app, ?smsRequests_toOwner, ?emailRequests_toOwner,
    ?ga4Requests_toOwner, ?adsRequests_toOwner; reflexivity.

Ltac finish_owner_run :=
  first
    [ solve [ eexists; exists []; split;
              [ reflexivity | intros w st; rewrite log_nil; reflexivity ] ]
    | solve [ do 2 eexists; split; cycle 1;
              [ intros w st; repeat sink_step; rewrite ?log_log; reflexivity
              | owner_requests ] ] ].

Lemma processNotification_toOwner env payload :
  exists c rs,
    forallb (toOwner env) rs = true /\
    forall w st,
      NotificationService.processNotification w env payload st = (c, log st rs).
Proof.
  destruct payload; run_consumer; repeat payload_case; finish_owner_run.
Qed.

Lemma trackAnalytics_toOwner env payload :
  exists c rs,
    forallb (toOwner env) rs = true /\
    forall w st, Consumer.trackAnalytics w env payload st = (c, log st rs).
Proof.
  destruct payload; run_consumer; repeat payload_case; finish_owner_run.
Qed.

(** X6: whatever the message body, a delivery sends SMS and email requests
    only to [EMAIL_TO] (emails from [EMAIL_FROM]); no address or phone number
    taken from the payload is ever written to.  Besides these and analytics
    events it performs the settling call, and nothing else: it never calls
    the completion endpoint and never enqueues. *)
Theorem delivery_notifies_owner_only w env (m : Message) :
  forallb (deliveryEffect env) (deliver w env m) = true.
Proof.
  destruct (processNotification_toOwner env (body m)) as (c1 & rs1 & Ho1 & H1).
  destruct (trackAnalytics_toOwner env (body m)) as (c2 & rs2 & Ho2 & H2).
  rewrite (handleMessage_run env m c1 rs1 c2 rs2 H1 H2 w).
  assert (Hmap : forall rs, forallb (toOwner env) rs = true ->
                            forallb (deliveryEffect env) (map Fetched rs) = true).
  { induction rs as [|r rs IH]; cbn; [reflexivity|].
    rewrite !andb_true_iff. intros [Hr Hrs]. auto. }
  destruct c1, c2; rewrite forallb_app, Hmap; rewrite ?forallb_app, ?Ho1, ?Ho2;
    reflexivity.
Qed.

(** ** The lead qualifier and surrounding text *)

Lemma toLowerCase_app s t : toLowerCase (s ++ t) = toLowerCase s ++ toLowerCase t.
Proof. induction s as [|c s IH]; cbn; [reflexivity|]. now rewrite IH. Qed.

Lemma append_assoc (a b c : string) : (a ++ b) ++ c = a ++ b ++ c.
Proof. induction a as [|x a IH]; cbn; [reflexivity|]. now rewrite IH. Qed.

(** X7: text added before or after a message never turns a high-value
    message into an ordinary one: if the qualifier accepts [m], it accepts
    [pre ++ m ++ post]. *)
Theorem detectHighValueLead_extends (pre m post : string) (r r' : JsValue) :
  ChatSession.detectHighValueLead m r = true ->
  ChatSession.detectHighValueLead (pre ++ m ++ post) r' = true.
Proof.
  rewrite !detectHighValueLead_spec. intros (k & Hin & a & b & Hk).
  exists k. split; [assumption|].
  exists (toLowerCase pre ++ a), (b ++ toLowerCase post).
  rewrite !toLowerCase_app, Hk, !append_assoc. reflexivity.
Qed.

Lemma detectHighValueLead_extends_witness :
  ChatSession.detectHighValueLead "a quote" JUndefined = true /\
  ChatSession.detectHighValueLead ("Hi, I need " ++ "a quote" ++ " for my kitchen")
    (JStr "Sure!") = true.
Proof.
  split; [reflexivity|].
  apply (detectHighValueLead_extends "Hi, I need " "a quote" " for my kitchen"
           JUndefined (JStr "Sure!")).
  reflexivity.
Defined.

(** ** What a chat request does besides answering *)

(** X8: a chat request for a body of type [ChatMessage] performs exactly one
    completion call, which comes first, then at most one queue send and at
    most one analytics request, and nothing else: the session object never
    sends an SMS or an email itself.  The analytics event is always
    [chat_interaction] with label [chat_message] and value 5, for high-value
    messages too, because [fetch] calls [trackChatInteraction] without its
    [isHighValue] argument; no Google Ads conversion is ever reported for a
    chat. *)
Theorem chat_effects w env oid req h :
  let es := effects (snd (chat w env oid req h)) in
  forallb chatEffect es = true /\
  hd_error es
  = Some (Fetched (ChatSession.completionRequest env (historyOf h) req)) /\
  completion_attempts es = 1%nat /\
  (enqueue_attempts es <= 1)%nat /\
  (analytics_attempts es <= 1)%nat /\
  sms_attempts es = 0%nat /\
  email_attempts es = 0%nat /\
  List.length es = (1 + enqueue_attempts es + analytics_attempts es)%nat.
Proof.
  cbv zeta. unfold chat, ChatSession.fetch.
  cbv beta iota zeta delta
    [bind ret lift throw try_catch storage_get storage_put do_fetch
     response_json queue_send emit initial storage_history effects fst snd
     waitUntil AnalyticsService.trackChatInteraction Js.truthy].
  destruct (net w _) as [|s [j|]]; cbv beta iota;
    try (repeat split; cbn; lia).
  destruct (ChatSession.replyOf j) as [r|e]; cbv beta iota;
    try (repeat split; cbn; lia).
  destruct (ChatSession.detectHighValueLead (message req) r); cbv beta iota;
    [destruct (queue_accepts w _); cbv beta iota;
       try (repeat split; cbn; lia) |];
    (destruct (Js.length_of r) as [len|e]; cbv beta iota;
       [ sink_step; unfold log, ga4Requests;
         destruct (present (GA_MEASUREMENT_ID env));
         repeat split; cbn; lia
       | repeat split; cbn; lia ]).
Qed.


(** ** What a high-value chat enqueues *)

(** X9: when the completion call has been answered with a body from which a
    reply can be read and the qualifier accepts the message, the chat
    request makes exactly one queue send.  What it sends is the JSON text of
    a [high_value_chat_lead] object that carries the user message, the reply
    read from the response, the page of the request ('unknown' when the
    request names none) and the server's clock as [timestamp]. *)
Theorem high_value_chat_enqueues_one_lead w env oid req h s j r :
  net w (ChatSession.completionRequest env (historyOf h) req)
  = Responded s (Some j) ->
  ChatSession.replyOf j = Normal r ->
  ChatSession.detectHighValueLead (message req) r = true ->
  exists lead,
    filter is_enqueue (effects (snd (chat w env oid req h)))
    = [QueueSendJson (JObj lead)] /\
    Js.lookup "type" lead = JStr "high_value_chat_lead" /\
    Js.lookup "message" lead = JStr (message req) /\
    Js.lookup "reply" lead = r /\
    Js.lookup "page" lead = JStr (str_or (page req) "unknown") /\
    Js.lookup "timestamp" lead = JNum (now w).
Proof.
  intros Hnet Hreply Hlead.
  exists [ ("type", JStr "high_value_chat_lead");
           ("message", JStr (message req));
           ("reply", r);
           ("page", JStr (str_or (page req) "unknown"));
           ("timestamp", JNum (now w)) ].
  fold (ChatSession.leadPayload w req r).
  split; [|repeat split].
  pose proof (chat_readable w env oid req h s j r Hnet Hreply) as H.
  cbv zeta in H. rewrite Hlead in H. cbn [andb] in H.
  destruct (queue_accepts w _); cbn [negb] in H.
  - destruct H as [fs ->]. cbn [snd effects].
    change (Fetched ?a :: [?b] ++ ?c)%list with ([Fetched a; b] ++ c)%list.
    rewrite filter_app, filter_fetched by reflexivity. reflexivity.
  - rewrite H. reflexivity.
Qed.

Lemma high_value_chat_witness :
  let w := Sample.world (Responded 200 (Some (Sample.completionBody (JStr "Sure!"))))
             Sample.ok200 Sample.ok200 Sample.ok200 true in
  exists lead,
    filter is_enqueue
      (effects (snd (chat w Sample.env "session-1" Sample.commercial None)))
    = [QueueSendJson (JObj lead)] /\
    Js.lookup "type" lead = JStr "high_value_chat_lead" /\
    Js.lookup "message" lead = JStr (message Sample.commercial) /\
    Js.lookup "reply" lead = JStr "Sure!" /\
    Js.lookup "page" lead = JStr (str_or (page Sample.commercial) "unknown") /\
    Js.lookup "timestamp" lead = JNum (now w).
Proof.
  cbv zeta.
  apply (high_value_chat_enqueues_one_lead
           (Sample.world (Responded 200 (Some (Sample.completionBody (JStr "Sure!"))))
              Sample.ok200 Sample.ok200 Sample.ok200 true)
           Sample.env "session-1" Sample.commercial None 200%Z
           (Sample.completionBody (JStr "Sure!")) (JStr "Sure!"));
    reflexivity.
Defined.


(** ** Sessions *)

Lemma chat_answers w env oid req h r :
  answers w env h req r ->
  fst (chat w env oid req h)
  = Normal {| reply := r; sessionId := oid;
              isHighValue := ChatSession.detectHighValueLead (message req) r |} /\
  storage_history (snd (chat w env oid req h))
  = Some (historyOf h ++ exchange req r)%list /\
  hd_error (effects (snd (chat w env oid req h)))
  = Some (Fetched (ChatSession.completionRequest env (historyOf h) req)).
Proof.
  intros (s & j & Hnet & Hreply & Hq).
  pose proof (chat_readable w env oid req h s j r Hnet Hreply) as H.
  cbv zeta in H.
  destruct (ChatSession.detectHighValueLead (message req) r); cbn [andb] in H.
  - rewrite Hq in H by reflexivity. cbn [negb] in H. destruct H as [fs ->].
    repeat split.
  - destruct H as [fs ->]. repeat split.
Qed.

Lemma chat_throw_keeps_storage w env oid req h e :
  fst (chat w env oid req h) = Throw e ->
  storage_history (snd (chat w env oid req h)) = h.
Proof.
  unfold chat, ChatSession.fetch.
  cbv beta iota zeta delta
    [bind ret lift throw try_catch storage_get storage_put do_fetch
     response_json queue_send emit initial storage_history effects fst snd
     waitUntil AnalyticsService.trackChatInteraction Js.truthy].
  destruct (net w _) as [|s [j|]]; cbv beta iota; try reflexivity.
  destruct (ChatSession.replyOf j) as [r|e']; cbv beta iota; try reflexivity.
  destruct (ChatSession.detectHighValueLead (message req) r); cbv beta iota;
    [destruct (queue_accepts w _); cbv beta iota; try reflexivity |];
    (destruct (Js.length_of r) as [len|e']; cbv beta iota;
       [ sink_step; discriminate | discriminate ]).
Qed.

(** X10: sessions are isolated.  A chat request changes the stored history
    of no durable object other than the one its session name maps to, and a
    request that fails changes no stored history at all. *)
Theorem handleChat_touches_one_session w pf env header req
    (sessions : ChatRoute.Sessions) (other : string) :
  let objectId := idFromName pf (str_or header (randomUUID pf)) in
  let after := snd (fst (ChatRoute.handleChat w pf env header req sessions)) in
  (other =? objectId) = false ->
  after other = sessions other /\
  match fst (fst (ChatRoute.handleChat w pf env header req sessions)) with
  | Throw _ => after objectId = sessions objectId
  | Normal _ => True
  end.
Proof.
  cbv zeta. unfold ChatRoute.handleChat. cbn [fst snd]. intros Hother.
  unfold ChatRoute.put. rewrite Hother, String.eqb_refl. split; [reflexivity|].
  fold (chat w env (idFromName pf (str_or header (randomUUID pf))) req
          (sessions (idFromName pf (str_or header (randomUUID pf))))).
  destruct (fst (chat w env _ req _)) eqn:Hres; [exact I|].
  now apply chat_throw_keeps_storage in Hres.
Qed.

Lemma handleChat_touches_one_session_witness :
  let after :=
    snd (fst (ChatRoute.handleChat (Demo.world true) Demo.platform Sample.env
                (Some "bob") Sample.hello Demo.sessions)) in
  ("do:alice" =? idFromName Demo.platform
                   (str_or (Some "bob") (randomUUID Demo.platform))) = false /\
  after "do:alice" = Demo.sessions "do:alice".
Proof.
  cbv zeta. split; [reflexivity|].
  refine (proj1 (handleChat_touches_one_session (Demo.world true) Demo.platform
                   Sample.env (Some "bob") Sample.hello Demo.sessions "do:alice" _)).
  reflexivity.
Defined.

(** X11: a session keeps its history from one request to the next.  After
    two answered requests under the same [X-Session-ID], the stored history
    is the earlier history followed by the two exchanges in order, and the
    completion request of the second call carries the first exchange: the
    model is shown what was said before. *)
Theorem handleChat_continues_the_conversation
    w1 w2 pf env (name : string) req1 req2 r1 r2
    (sessions : ChatRoute.Sessions) :
  let objectId := idFromName pf name in
  let first := ChatRoute.handleChat w1 pf env (Some name) req1 sessions in
  let second :=
    ChatRoute.handleChat w2 pf env (Some name) req2 (snd (fst first)) in
  let before := historyOf (sessions objectId) in
  name <> "" ->
  answers w1 env (sessions objectId) req1 r1 ->
  answers w2 env (Some (before ++ exchange req1 r1)%list) req2 r2 ->
  snd (fst second) objectId
  = Some (before ++ exchange req1 r1 ++ exchange req2 r2)%list /\
  hd_error (snd second)
  = Some (Fetched (ChatSession.completionRequest env
                     (before ++ exchange req1 r1)%list req2)) /\
  fst (fst second)
  = Normal {| reply := r2; sessionId := objectId;
              isHighValue := ChatSession.detectHighValueLead (message req2) r2 |}.
Proof.
  cbv zeta. intros Hname H1 H2.
  assert (Hid : str_or (Some name) (randomUUID pf) = name).
  { cbn. destruct (String.eqb_spec name ""); [contradiction | reflexivity]. }
  unfold ChatRoute.handleChat. rewrite Hid. cbn [fst snd].
  fold (chat w1 env (idFromName pf name) req1 (sessions (idFromName pf name))).
  destruct (chat_answers w1 env (idFromName pf name) req1 _ r1 H1) as (_ & Hs1 & _).
  unfold ChatRoute.put at 2 3 4. rewrite String.eqb_refl, Hs1.
  match goal with
  | |- context [ChatSession.fetch w2 env ?o req2 (initial ?h)] =>
      fold (chat w2 env o req2 h);
      destruct (chat_answers w2 env o req2 h r2 H2) as (Hr2 & Hs2 & He2)
  end.
  cbn [historyOf] in *.
  unfold ChatRoute.put. rewrite String.eqb_refl, Hs2, He2.
  rewrite <- app_assoc. repeat split. exact Hr2.
Qed.

Lemma handleChat_continues_witness :
  let first :=
    ChatRoute.handleChat (Demo.world true) Demo.platform Sample.env
      (Some "alice") Sample.hello Demo.sessions in
  let second :=
    ChatRoute.handleChat (Demo.world true) Demo.platform Sample.env
      (Some "alice") Sample.commercial (snd (fst first)) in
  snd (fst second) "do:alice"
  = Some (Sample.earlier
          ++ exchange Sample.hello (JStr "Sure!")
          ++ exchange Sample.commercial (JStr "Sure!"))%list.
Proof.
  cbv zeta.
  refine (proj1 (handleChat_continues_the_conversation
                   (Demo.world true) (Demo.world true) Demo.platform Sample.env
                   "alice" Sample.hello Sample.commercial (JStr "Sure!") (JStr "Sure!")
                   Demo.sessions _ _ _)).
  - discriminate.
  - exists 200%Z, (Sample.completionBody (JStr "Sure!")). repeat split.
  - exists 200%Z, (Sample.completionBody (JStr "Sure!")). repeat split.
Defined.

(** ** Object literals *)

Lemma lookup_assign k k' v fields :
  Js.lookup k (JsObject.assign k' v fields)
  = if k =? k' then v else Js.lookup k fields.
Proof.
  induction fields as [|[k0 v0] rest IH]; cbn.
  - now destruct (k =? k').
  - destruct (String.eqb_spec k' k0) as [->|Hne]; cbn.
    + now destruct (k =? k0).
    + rewrite IH. destruct (String.eqb_spec k k0) as [->|]; [|reflexivity].
      destruct (String.eqb_spec k0 k'); [congruence | reflexivity].
Qed.

Lemma lookup_spread_from k own (part acc : list (string * JsValue)) :
  Js.lookup k
    (fold_left (fun acc kv => JsObject.assign (fst kv) (Js.lookup (fst kv) own) acc)
               part acc)
  = if JsObject.has_key k part then Js.lookup k own else Js.lookup k acc.
Proof.
  revert acc. induction part as [|[k0 v0] rest IH]; intros acc; cbn; [reflexivity|].
  rewrite IH, lookup_assign.
  destruct (String.eqb_spec k k0) as [->|]; cbn; [|reflexivity].
  now destruct (JsObject.has_key k0 rest).
Qed.

(** ** The estimate route *)

(** X12: the payload that [handleEstimate] enqueues always carries the
    server's clock as [timestamp], whatever the submitted object contains.
    Every other property of the submitted object is copied as it is, so a
    [type] or [leadValue] sent by the client ends up in the payload; the
    tag [estimate_request] is what [type] reads only when the client sent
    none. *)
Theorem estimatePayload_fields w (data : JsValue) (k : string) :
  Js.get (EstimateRoute.estimatePayload w data) k
  = Normal
      (if k =? "timestamp" then JNum (now w)
       else if JsObject.has_key k (JsObject.own_properties data)
            then Js.lookup k (JsObject.own_properties data)
            else if k =? "type" then JStr "estimate_request"
                 else JUndefined).
Proof.
  unfold EstimateRoute.estimatePayload. cbn [Js.get].
  rewrite lookup_assign. unfold JsObject.spread.
  rewrite lookup_spread_from. cbn [Js.lookup].
  reflexivity.
Qed.

Ltac finish_ga4_run :=
  first
    [ solve [ eexists; exists []; split;
              [ reflexivity | intros w st; rewrite log_nil; reflexivity ] ]
    | solve [ do 2 eexists; split; cycle 1;
              [ intros w st; repeat sink_step; rewrite ?log_log; reflexivity
              | rewrite ?forallb_app, ?ga4Requests_isGA4, ?adsRequests_isGA4;
                reflexivity ] ] ].

Lemma trackFormSubmission_run env data page sid :
  exists c rs,
    forallb isGA4 rs = true /\
    forall w st,
      AnalyticsService.trackFormSubmission w env data page sid st = (c, log st rs).
Proof.
  destruct data; run_consumer; repeat payload_case; finish_ga4_run.
Qed.

Lemma waitUntil_formSubmission env data page sid :
  exists rs,
    forallb isGA4 rs = true /\
    forall w st,
      waitUntil (AnalyticsService.trackFormSubmission w env data page sid) st
      = (Normal tt, log st rs).
Proof.
  destruct (trackFormSubmission_run env data page sid) as (c & rs & Hga & H).
  exists rs. split; [assumption|]. intros w st.
  unfold waitUntil, try_catch. rewrite H. now destruct c as [[]|e].
Qed.

(** X13: [handleEstimate] never returns a response.  Its last statement
    passes the path '/thank-you.html' to [Response.redirect], which parses
    its argument as a URL without a base and throws; a request that gets
    through the insert and the queue send therefore fails there, with its
    row inserted, its payload sent to the queue and its analytics requests
    made.  Before that the handler writes the lead before it enqueues and
    enqueues before it tracks: a request that fails before or at the insert
    leaves the table as it was and sends nothing; one that fails at the
    queue send has already inserted its row, which is not taken back, and
    has made no analytics request. *)
Theorem handleEstimate_stages w pf env json referer (leads : list (list JsValue)) :
  let run := EstimateRoute.handleEstimate w pf env json referer leads in
  (forall response, fst (fst run) <> EstimateRoute.Answered response) /\
  match json with
  | None => run = (EstimateRoute.Failed EstimateRoute.BodyNotJson, leads, [])
  | Some data =>
      match EstimateRoute.leadRow w data with
      | Throw _ =>
          run = (EstimateRoute.Failed EstimateRoute.BodyNotObject, leads, [])
      | Normal row =>
          if negb (db_accepts pf row)
          then run = (EstimateRoute.Failed EstimateRoute.InsertFailed, leads, [])
          else if negb (queue_accepts w (EstimateRoute.estimatePayload w data))
          then run = (EstimateRoute.Failed EstimateRoute.EnqueueFailed,
                      (leads ++ [row])%list,
                      [QueueSendJson (EstimateRoute.estimatePayload w data)])
          else exists rs,
                 forallb isGA4 rs = true /\
                 run = (EstimateRoute.Failed EstimateRoute.RedirectFailed,
                        (leads ++ [row])%list,
                        QueueSendJson (EstimateRoute.estimatePayload w data)
                        :: map Fetched rs)
      end
  end.
Proof.
  cbv zeta. unfold EstimateRoute.handleEstimate.
  destruct json as [data|]; [|split; [discriminate | reflexivity]].
  destruct (EstimateRoute.leadRow w data) as [row|e];
    [|split; [discriminate | reflexivity]].
  destruct (db_accepts pf row); cbn [negb];
    [|split; [discriminate | reflexivity]].
  destruct (waitUntil_formSubmission env data (JStr (str_or referer "unknown"))
              JUndefined) as (rs & Hga & H).
  cbv beta iota zeta delta
    [bind ret throw queue_send emit initial storage_history effects].
  destruct (queue_accepts w _); cbn [negb fst snd]; cbv beta iota;
    [|split; [discriminate | reflexivity]].
  rewrite H. split; [discriminate|].
  exists rs. split; [assumption|]. reflexivity.
Qed.

(** ** Messages as the producers send them *)



(** ** Image uploads *)

(** X17: the chat image upload always answers and never fails because of
    analytics.  It answers 405 to a method other than POST, 500 when the
    form cannot be read, 400 when the [image] entry is missing or is a text
    field, when the file is larger than 10 MiB or when its type does not
    start with "image/", and 200 otherwise; a file of exactly 10 MiB is
    accepted.  Exactly the accepted uploads are tracked, with one analytics
    event where GA4 is configured, and the handler sends nothing else. *)
Theorem chat_upload_response w pf env method
    (form : option (FormEntry * FormEntry)) :
  let run := ChatUpload.handleImageUpload w pf env method form (initial None) in
  let code : Z :=
    if negb (method =? "POST") then 405%Z
    else match form with
         | None => 500%Z
         | Some (FileField name type size, _) =>
             if (size <=? maxUploadSize)%Z && startsWith type "image/"
             then 200%Z else 400%Z
         | Some _ => 400%Z
         end in
  (exists response, fst run = Normal response /\ Http.status response = code) /\
  List.length (effects (snd run))
  = (if (code =? 200)%Z && present (GA_MEASUREMENT_ID env) then 1 else 0) /\
  analytics_attempts (effects (snd run)) = List.length (effects (snd run)).
Proof.
  cbv zeta. unfold ChatUpload.handleImageUpload.
  destruct (method =? "POST"); cbn [negb];
    [|destruct form as [[[| text | name type size] sid]|];
      repeat split; eexists; split; reflexivity].
  destruct form as [[[| text | name type size] sid]|];
    [ repeat split; eexists; split; reflexivity
    | repeat split; eexists; split; reflexivity
    |
    | repeat split; eexists; split; reflexivity ].
  cbv beta iota zeta delta [try_catch bind ret throw fst snd].
  rewrite Z.leb_antisym.
  destruct (maxUploadSize <? size)%Z; cbn [negb andb];
    [repeat split; eexists; split; reflexivity|].
  destruct (startsWith type "image/"); cbn [negb];
    [|repeat split; eexists; split; reflexivity].
  unfold AnalyticsService.trackBusinessEvent.
  cbv beta iota zeta delta [bind ret].
  repeat sink_step. unfold log, ga4Requests, initial.
  cbn [effects app storage_history].
  destruct (present (GA_MEASUREMENT_ID env));
    repeat split; eexists; split; reflexivity.
Qed.

Lemma allowed_is_image type :
  UploadRoute.allowed type = true -> startsWith type "image/" = true.
Proof.
  unfold UploadRoute.allowed, UploadRoute.allowedTypes. cbn [existsb].
  rewrite !orb_true_iff, !String.eqb_eq.
  intros [<-|[<-|[<-|[<-|H]]]]; try reflexivity. discriminate.
Qed.

(** X18: the estimate image upload (routes/upload.ts) accepts a file only
    if its type is one of image/jpeg, image/png, image/webp, image/gif and
    its size is at most 10 MiB, and then echoes the file name and size.  It
    is the stricter of the two upload handlers: every request it answers
    with 200 is answered with 200 by the chat image upload as well. *)
Theorem upload_allow_list_is_stricter w pf env method (image sid : FormEntry)
    (response : Http.Response) :
  UploadRoute.handleImageUpload pf method (Some image) = Normal response ->
  Http.status response = 200%Z ->
  (exists name type size,
     image = FileField name type size /\
     UploadRoute.allowed type = true /\ (size <= maxUploadSize)%Z /\
     exists url,
       Http.content response
       = Http.Json (JObj [ ("success", JBool true); ("imageUrl", JStr url);
                           ("fileName", JStr name); ("fileSize", JNum size);
                           ("message",
                            JStr "Image uploaded successfully (placeholder implementation)") ])) /\
  exists response',
    fst (ChatUpload.handleImageUpload w pf env method (Some (image, sid))
           (initial None)) = Normal response' /\
    Http.status response' = 200%Z.
Proof.
  intros Hrun Hstatus.
  destruct (chat_upload_response w pf env method (Some (image, sid)))
    as ((response' & Hr' & Hs') & _).
  unfold UploadRoute.handleImageUpload in Hrun.
  destruct (method =? "POST"); cbn [negb] in *;
    [|injection Hrun as <-; discriminate].
  destruct image as [| [|c text] | name type size];
    try (injection Hrun as <-; discriminate).
  destruct (UploadRoute.allowed type) eqn:Hallowed; cbn [negb] in Hrun;
    [|injection Hrun as <-; discriminate].
  destruct (maxUploadSize <? size)%Z eqn:Hsize;
    [injection Hrun as <-; discriminate|].
  apply Z.ltb_ge in Hsize. injection Hrun as <-. split.
  - exists name, type, size. repeat split; try assumption.
    eexists. reflexivity.
  - exists response'. split; [assumption|]. rewrite Hs'.
    rewrite (allowed_is_image type Hallowed).
    apply Z.leb_le in Hsize. now rewrite Hsize.
Qed.

Lemma upload_allow_list_witness :
  exists response',
    fst (ChatUpload.handleImageUpload (Demo.world true) Demo.platform Sample.env
           "POST" (Some (FileField "wall.png" "image/png" 204800, TextField "s-1"))
           (initial None)) = Normal response' /\
    Http.status response' = 200%Z.
Proof.
  refine (proj2 (upload_allow_list_is_stricter (Demo.world true) Demo.platform
                   Sample.env "POST" (FileField "wall.png" "image/png" 204800)
                   (TextField "s-1") _ _ _)).
  - reflexivity.
  - reflexivity.
Defined.

(** ** Engagement level *)

(** X19: on numeric input the engagement level is monotone: more time on
    the page together with a deeper scroll never gives a lower level.  The
    level is 'high' only above 120000 ms and 75 percent, and 'low' whenever
    the time is at most 60000 ms or the depth at most 50 percent. *)
Theorem calculateEngagementLevel_monotone pf (t t' s s' : Z) :
  numeric_gt pf ->
  (t <= t')%Z -> (s <= s')%Z ->
  (levelRank (Engagement.calculateEngagementLevel pf (JNum t) (JNum s))
   <= levelRank (Engagement.calculateEngagementLevel pf (JNum t') (JNum s')))%nat /\
  (levelRank (Engagement.calculateEngagementLevel pf (JNum t) (JNum s)) = 2
   <-> (120000 < t /\ 75 < s)%Z) /\
  (levelRank (Engagement.calculateEngagementLevel pf (JNum t) (JNum s)) = 0
   <-> (t <= 60000 \/ s <= 50)%Z).
Proof.
  intros Hgt Ht Hs. unfold Engagement.calculateEngagementLevel.
  rewrite !Hgt.
  repeat match goal with
         | |- context [(?a <? ?b)%Z] => destruct (Z.ltb_spec a b)
         end; cbn; repeat split; intros; try lia; try discriminate.
Qed.

Lemma calculateEngagementLevel_witness :
  (levelRank (Engagement.calculateEngagementLevel Demo.platform
                (JNum 70000) (JNum 60))
   <= levelRank (Engagement.calculateEngagementLevel Demo.platform
                   (JNum 130000) (JNum 80)))%nat.
Proof.
  refine (proj1 (calculateEngagementLevel_monotone Demo.platform
                   70000 130000 60 80 _ _ _)).
  - intros z n. reflexivity.
  - lia.
  - lia.
Defined.

(** ** Redelivery *)


